(** * ASCVD pooled-cohort risk calculator: a model of [ascvd.py]

    The development embeds [calculate_ascvd_risk] and its FastAPI route
    [calculate_risk].  Python [int] is [Z]; Python [float] is idealised as
    a real number ([R]): [math.log] is [ln] (and raises on a non-positive
    argument), [math.exp] is [exp], [**] on a positive base is [Rpower],
    and the built-in [round] is rounding to the nearest integer with ties
    to even.  Exceptions are an explicit error result. *)

From Stdlib Require Import Reals Lra Lia ZArith String Ascii List Bool Psatz
  DecimalString.
Import ListNotations.

Local Open Scope Z_scope.
Local Open Scope R_scope.
Local Open Scope string_scope.

(** ** Exceptions and results *)

Inductive exn : Type :=
| HTTPException (status_code : Z) (detail : string)
| ValueError (msg : string).

Inductive result (A : Type) : Type :=
| Ok (a : A)
| Raise (e : exn).

Arguments Ok {A} a.
Arguments Raise {A} e.

Definition bind {A B : Type} (c : result A) (k : A -> result B) : result B :=
  match c with
  | Ok a => k a
  | Raise e => Raise e
  end.

Notation "x <- c ;; k" := (bind c (fun x => k))
  (at level 61, c at next level, right associativity).

(** ** Library functions used by the source *)

(** [math.log(x)] on an [int]: a [ValueError] unless [x] is positive. *)
Definition math_log (x : Z) : result R :=
  if (x <=? 0)%Z then Raise (ValueError "math domain error")
  else Ok (ln (IZR x)).

(** [math.exp(x)].  The source raises [OverflowError] once the result
    leaves the float range (arguments above about 709.78); statements
    about the output step keep the argument at or below 709. *)
Definition math_exp (x : R) : R := exp x.

(** [b ** e] on floats, for the positive bases the source uses. *)
Definition float_pow (b e : R) : R := Rpower b e.

(** The built-in [round(x)] with one argument: the nearest integer, a tie
    going to the even neighbour. *)
Definition py_round (x : R) : Z :=
  let f := Int_part x in
  let d := x - IZR f in
  if Rlt_dec d (1 / 2) then f
  else if Rlt_dec (1 / 2) d then (f + 1)%Z
  else if Z.even f then f else (f + 1)%Z.

(** ** The request schema (class [ASCVDInput]) *)

Record ASCVDInput : Type := {
  is_male : bool;
  is_black : bool;
  smoker : bool;
  hypertensive : bool;
  diabetic : bool;
  age : Z;
  systolic_bp : Z;
  diastolic_bp : Z;
  total_cholesterol : Z;
  hdl : Z;
  ldl : Z
}.

(** ** The transform step (source lines 50-60)

    The ten local variables the logarithmic block assigns. *)

Record Terms : Type := {
  ln_age : R;
  ln_total_chol : R;
  ln_hdl : R;
  tr_ln_sbp : R;
  nt_ln_sbp : R;
  age_total_chol : R;
  age_hdl : R;
  age_tr_sbp : R;
  age_nt_sbp : R;
  age_smoke : R
}.

Definition transform (smoker hypertensive : bool)
    (age systolic_bp total_cholesterol hdl : Z) : result Terms :=
  ln_age <- math_log age ;;
  ln_total_chol <- math_log total_cholesterol ;;
  ln_hdl <- math_log hdl ;;
  tr_ln_sbp <- (if hypertensive then math_log systolic_bp else Ok 0) ;;
  nt_ln_sbp <- (if hypertensive then Ok 0 else math_log systolic_bp) ;;
  let age_total_chol := ln_age * ln_total_chol in
  let age_hdl := ln_age * ln_hdl in
  let age_tr_sbp := ln_age * tr_ln_sbp in
  let age_nt_sbp := ln_age * nt_ln_sbp in
  let age_smoke := if smoker then ln_age else 0 in
  Ok {| ln_age := ln_age;
        ln_total_chol := ln_total_chol;
        ln_hdl := ln_hdl;
        tr_ln_sbp := tr_ln_sbp;
        nt_ln_sbp := nt_ln_sbp;
        age_total_chol := age_total_chol;
        age_hdl := age_hdl;
        age_tr_sbp := age_tr_sbp;
        age_nt_sbp := age_nt_sbp;
        age_smoke := age_smoke |}.

(** ** The race and gender branch (source lines 62-120)

    Each arm assigns [s010], [mnxb] and [predict]; the model returns the
    three of them. *)

Definition subgroup (is_male is_black smoker diabetic : bool) (t : Terms)
  : R * R * R :=
  if is_black && negb is_male then
    (0.95334, 86.6081,
     17.1141 * ln_age t
     + 0.9396 * ln_total_chol t
     - 18.9196 * ln_hdl t
     + 4.4748 * age_hdl t
     + 29.2907 * tr_ln_sbp t
     - 6.4321 * age_tr_sbp t
     + 27.8197 * nt_ln_sbp t
     - 6.0873 * age_nt_sbp t
     + (if smoker then 0.6908 else 0)
     + (if diabetic then 0.8738 else 0))
  else if negb is_black && negb is_male then
    (0.96652, -29.1817,
     -29.799 * ln_age t
     + 4.884 * ln_age t ^ 2
     + 13.54 * ln_total_chol t
     - 3.114 * age_total_chol t
     - 13.578 * ln_hdl t
     + 3.149 * age_hdl t
     + 2.019 * tr_ln_sbp t
     + 1.957 * nt_ln_sbp t
     + (if smoker then 7.574 else 0)
     - 1.665 * age_smoke t
     + (if diabetic then 0.661 else 0))
  else if is_black && is_male then
    (0.89536, 19.5425,
     2.469 * ln_age t
     + 0.302 * ln_total_chol t
     - 0.307 * ln_hdl t
     + 1.916 * tr_ln_sbp t
     + 1.809 * nt_ln_sbp t
     + (if smoker then 0.549 else 0)
     + (if diabetic then 0.645 else 0))
  else
    (0.91436, 61.1816,
     12.344 * ln_age t
     + 11.853 * ln_total_chol t
     - 2.664 * age_total_chol t
     - 7.99 * ln_hdl t
     + 1.769 * age_hdl t
     + 1.797 * tr_ln_sbp t
     + 1.764 * nt_ln_sbp t
     + (if smoker then 7.837 else 0)
     - 1.795 * age_smoke t
     + (if diabetic then 0.658 else 0)).

(** ** The output step (source lines 122-124) *)

Definition output (s010 mnxb predict : R) : R :=
  let risk := 1 - float_pow s010 (math_exp (predict - mnxb)) in
  IZR (py_round (risk * 1000)) / 10.

(** ** [calculate_ascvd_risk] *)

Definition calculate_ascvd_risk
    (is_male is_black smoker hypertensive diabetic : bool)
    (age systolic_bp diastolic_bp total_cholesterol hdl ldl : Z)
  : result R :=
  if negb ((40 <=? age)%Z && (age <=? 79)%Z) then
    Raise (HTTPException 400 "Age must be between 40 and 79.")
  else if negb ((90 <=? systolic_bp)%Z && (systolic_bp <=? 200)%Z) then
    Raise (HTTPException 400 "Systolic BP must be between 90 and 200 mmHg.")
  else if negb ((60 <=? diastolic_bp)%Z && (diastolic_bp <=? 130)%Z) then
    Raise (HTTPException 400 "Diastolic BP must be between 60 and 130 mmHg.")
  else if negb ((130 <=? total_cholesterol)%Z
                && (total_cholesterol <=? 320)%Z) then
    Raise (HTTPException 400
             "Total cholesterol must be between 130 and 320 mg/dL.")
  else if negb ((20 <=? hdl)%Z && (hdl <=? 100)%Z) then
    Raise (HTTPException 400
             "HDL cholesterol must be between 20 and 100 mg/dL.")
  else if negb ((30 <=? ldl)%Z && (ldl <=? 300)%Z) then
    Raise (HTTPException 400
             "LDL cholesterol must be between 30 and 300 mg/dL.")
  else
    t <- transform smoker hypertensive age systolic_bp total_cholesterol hdl ;;
    let '(s010, mnxb, predict) := subgroup is_male is_black smoker diabetic t in
    Ok (output s010 mnxb predict).

(** ** The route [calculate_risk] *)

Record Response : Type := { ascvd_risk : R }.

Definition calculate_risk (input_data : ASCVDInput) : result Response :=
  result <- calculate_ascvd_risk
              (is_male input_data) (is_black input_data)
              (smoker input_data) (hypertensive input_data)
              (diabetic input_data) (age input_data)
              (systolic_bp input_data) (diastolic_bp input_data)
              (total_cholesterol input_data) (hdl input_data)
              (ldl input_data) ;;
  Ok {| ascvd_risk := result |}.

(** ** Vocabulary of the specification *)

(** The six inclusive ranges of the validation step. *)
Definition valid (i : ASCVDInput) : Prop :=
  (40 <= age i <= 79)%Z /\
  (90 <= systolic_bp i <= 200)%Z /\
  (60 <= diastolic_bp i <= 130)%Z /\
  (130 <= total_cholesterol i <= 320)%Z /\
  (20 <= hdl i <= 100)%Z /\
  (30 <= ldl i <= 300)%Z.

(** The bounded fields, in the order the specification checks them. *)
Inductive Field : Type :=
| Age | SystolicBP | DiastolicBP | TotalCholesterol | Hdl | Ldl.

Definition fields_in_order : list Field :=
  [Age; SystolicBP; DiastolicBP; TotalCholesterol; Hdl; Ldl].

Definition field_value (i : ASCVDInput) (f : Field) : Z :=
  match f with
  | Age => age i
  | SystolicBP => systolic_bp i
  | DiastolicBP => diastolic_bp i
  | TotalCholesterol => total_cholesterol i
  | Hdl => hdl i
  | Ldl => ldl i
  end.

Definition field_min (f : Field) : Z :=
  match f with
  | Age => 40 | SystolicBP => 90 | DiastolicBP => 60
  | TotalCholesterol => 130 | Hdl => 20 | Ldl => 30
  end.

Definition field_max (f : Field) : Z :=
  match f with
  | Age => 79 | SystolicBP => 200 | DiastolicBP => 130
  | TotalCholesterol => 320 | Hdl => 100 | Ldl => 300
  end.

(** The name under which a field appears in an error message. *)
Definition field_label (f : Field) : string :=
  match f with
  | Age => "Age"
  | SystolicBP => "Systolic BP"
  | DiastolicBP => "Diastolic BP"
  | TotalCholesterol => "Total cholesterol"
  | Hdl => "HDL cholesterol"
  | Ldl => "LDL cholesterol"
  end.

Definition in_range (i : ASCVDInput) (f : Field) : bool :=
  (field_min f <=? field_value i f)%Z && (field_value i f <=? field_max f)%Z.

Definition first_violation (i : ASCVDInput) : option Field :=
  find (fun f => negb (in_range i f)) fields_in_order.

(** Decimal rendering of an integer, as [str] prints it. *)
Definition str (z : Z) : string := NilZero.string_of_int (Z.to_int z).

(** [contains needle hay]: [needle] occurs in [hay] ([needle in hay]). *)
Fixpoint contains (needle hay : string) : bool :=
  prefix needle hay
  || match hay with
     | EmptyString => false
     | String _ rest => contains needle rest
     end.

(** The four subgroups and their coefficient sets, as a table. *)
Inductive Subgroup : Type :=
| BlackFemale | NonBlackFemale | BlackMale | NonBlackMale.

Definition select_subgroup (isBlack isMale : bool) : Subgroup :=
  match isBlack, isMale with
  | true, false => BlackFemale
  | false, false => NonBlackFemale
  | true, true => BlackMale
  | false, true => NonBlackMale
  end.

Record CoefficientSet : Type := {
  cs_s010 : R;
  cs_meanXB : R;
  c_lnAge : R;
  c_lnAgeSq : R;
  c_lnTotalChol : R;
  c_ageTotalChol : R;
  c_lnHdl : R;
  c_ageHdl : R;
  c_treatedLnSBP : R;
  c_ageTreatedSBP : R;
  c_untreatedLnSBP : R;
  c_ageUntreatedSBP : R;
  c_smoker : R;
  c_ageSmoke : R;
  c_diabetic : R
}.

Definition coefficients (g : Subgroup) : CoefficientSet :=
  match g with
  | BlackFemale =>
      {| cs_s010 := 0.95334; cs_meanXB := 86.6081;
         c_lnAge := 17.1141; c_lnAgeSq := 0;
         c_lnTotalChol := 0.9396; c_ageTotalChol := 0;
         c_lnHdl := -18.9196; c_ageHdl := 4.4748;
         c_treatedLnSBP := 29.2907; c_ageTreatedSBP := -6.4321;
         c_untreatedLnSBP := 27.8197; c_ageUntreatedSBP := -6.0873;
         c_smoker := 0.6908; c_ageSmoke := 0; c_diabetic := 0.8738 |}
  | NonBlackFemale =>
      {| cs_s010 := 0.96652; cs_meanXB := -29.1817;
         c_lnAge := -29.799; c_lnAgeSq := 4.884;
         c_lnTotalChol := 13.54; c_ageTotalChol := -3.114;
         c_lnHdl := -13.578; c_ageHdl := 3.149;
         c_treatedLnSBP := 2.019; c_ageTreatedSBP := 0;
         c_untreatedLnSBP := 1.957; c_ageUntreatedSBP := 0;
         c_smoker := 7.574; c_ageSmoke := -1.665; c_diabetic := 0.661 |}
  | BlackMale =>
      {| cs_s010 := 0.89536; cs_meanXB := 19.5425;
         c_lnAge := 2.469; c_lnAgeSq := 0;
         c_lnTotalChol := 0.302; c_ageTotalChol := 0;
         c_lnHdl := -0.307; c_ageHdl := 0;
         c_treatedLnSBP := 1.916; c_ageTreatedSBP := 0;
         c_untreatedLnSBP := 1.809; c_ageUntreatedSBP := 0;
         c_smoker := 0.549; c_ageSmoke := 0; c_diabetic := 0.645 |}
  | NonBlackMale =>
      {| cs_s010 := 0.91436; cs_meanXB := 61.1816;
         c_lnAge := 12.344; c_lnAgeSq := 0;
         c_lnTotalChol := 11.853; c_ageTotalChol := -2.664;
         c_lnHdl := -7.99; c_ageHdl := 1.769;
         c_treatedLnSBP := 1.797; c_ageTreatedSBP := 0;
         c_untreatedLnSBP := 1.764; c_ageUntreatedSBP := 0;
         c_smoker := 7.837; c_ageSmoke := -1.795; c_diabetic := 0.658 |}
  end.

(** The specification's formula: transformed terms, the subgroup's linear
    combination, survival exponentiation and rounding. *)
Definition spec_predict (i : ASCVDInput) : R :=
  let lnAge := ln (IZR (age i)) in
  let lnTotalChol := ln (IZR (total_cholesterol i)) in
  let lnHdl := ln (IZR (hdl i)) in
  let treatedLnSBP :=
    if hypertensive i then ln (IZR (systolic_bp i)) else 0 in
  let untreatedLnSBP :=
    if hypertensive i then 0 else ln (IZR (systolic_bp i)) in
  let ageSmoke := if smoker i then lnAge else 0 in
  let cs := coefficients (select_subgroup (is_black i) (is_male i)) in
  c_lnAge cs * lnAge
  + c_lnAgeSq cs * (lnAge * lnAge)
  + c_lnTotalChol cs * lnTotalChol
  + c_ageTotalChol cs * (lnAge * lnTotalChol)
  + c_lnHdl cs * lnHdl
  + c_ageHdl cs * (lnAge * lnHdl)
  + c_treatedLnSBP cs * treatedLnSBP
  + c_ageTreatedSBP cs * (lnAge * treatedLnSBP)
  + c_untreatedLnSBP cs * untreatedLnSBP
  + c_ageUntreatedSBP cs * (lnAge * untreatedLnSBP)
  + c_ageSmoke cs * ageSmoke
  + (if smoker i then c_smoker cs else 0)
  + (if diabetic i then c_diabetic cs else 0).

Definition spec_risk_percent (i : ASCVDInput) : R :=
  let cs := coefficients (select_subgroup (is_black i) (is_male i)) in
  let risk :=
    1 - Rpower (cs_s010 cs) (exp (spec_predict i - cs_meanXB cs)) in
  IZR (py_round (risk * 1000)) / 10.

(** Two requests that differ at most in [diastolic_bp] and [ldl]. *)
Definition agree_except_unused (i j : ASCVDInput) : Prop :=
  is_male i = is_male j /\ is_black i = is_black j
  /\ smoker i = smoker j /\ hypertensive i = hypertensive j
  /\ diabetic i = diabetic j /\ age i = age j
  /\ systolic_bp i = systolic_bp j
  /\ total_cholesterol i = total_cholesterol j /\ hdl i = hdl j.

(** The linear predictor of a branch, and what it means for it to contain
    a term: the squared [ln_age] term makes it non-affine in [ln_age], and
    the [age_smoke] term makes it depend on [age_smoke]. *)
Definition predict_of (is_male is_black smoker diabetic : bool) (t : Terms)
  : R :=
  snd (subgroup is_male is_black smoker diabetic t).

Definition with_ln_age (x : R) (t : Terms) : Terms :=
  {| ln_age := x;
     ln_total_chol := ln_total_chol t;
     ln_hdl := ln_hdl t;
     tr_ln_sbp := tr_ln_sbp t;
     nt_ln_sbp := nt_ln_sbp t;
     age_total_chol := age_total_chol t;
     age_hdl := age_hdl t;
     age_tr_sbp := age_tr_sbp t;
     age_nt_sbp := age_nt_sbp t;
     age_smoke := age_smoke t |}.

Definition with_age_smoke (x : R) (t : Terms) : Terms :=
  {| ln_age := ln_age t;
     ln_total_chol := ln_total_chol t;
     ln_hdl := ln_hdl t;
     tr_ln_sbp := tr_ln_sbp t;
     nt_ln_sbp := nt_ln_sbp t;
     age_total_chol := age_total_chol t;
     age_hdl := age_hdl t;
     age_tr_sbp := age_tr_sbp t;
     age_nt_sbp := age_nt_sbp t;
     age_smoke := x |}.

Definition includes_ln_age_squared (is_male is_black : bool) : Prop :=
  exists smoker diabetic t d,
    predict_of is_male is_black smoker diabetic (with_ln_age (ln_age t + d) t)
    + predict_of is_male is_black smoker diabetic (with_ln_age (ln_age t - d) t)
    <> 2 * predict_of is_male is_black smoker diabetic t.

Definition includes_age_smoke (is_male is_black : bool) : Prop :=
  exists smoker diabetic t x,
    predict_of is_male is_black smoker diabetic (with_age_smoke x t)
    <> predict_of is_male is_black smoker diabetic t.

(** The message the validation step raises for each field (the literals
    of source lines 37-48). *)
Definition validation_detail (f : Field) : string :=
  match f with
  | Age => "Age must be between 40 and 79."
  | SystolicBP => "Systolic BP must be between 90 and 200 mmHg."
  | DiastolicBP => "Diastolic BP must be between 60 and 130 mmHg."
  | TotalCholesterol =>
      "Total cholesterol must be between 130 and 320 mg/dL."
  | Hdl => "HDL cholesterol must be between 20 and 100 mg/dL."
  | Ldl => "LDL cholesterol must be between 30 and 300 mg/dL."
  end.

(** The unit that follows the range in a field's message. *)
Definition field_unit (f : Field) : string :=
  match f with
  | Age => ""
  | SystolicBP | DiastolicBP => " mmHg"
  | TotalCholesterol | Hdl | Ldl => " mg/dL"
  end.

Definition set_field (f : Field) (v : Z) (i : ASCVDInput) : ASCVDInput :=
  {| is_male := is_male i; is_black := is_black i; smoker := smoker i;
     hypertensive := hypertensive i; diabetic := diabetic i;
     age := match f with Age => v | _ => age i end;
     systolic_bp := match f with SystolicBP => v | _ => systolic_bp i end;
     diastolic_bp := match f with DiastolicBP => v | _ => diastolic_bp i end;
     total_cholesterol :=
       match f with TotalCholesterol => v | _ => total_cholesterol i end;
     hdl := match f with Hdl => v | _ => hdl i end;
     ldl := match f with Ldl => v | _ => ldl i end |}.

(** The values the transform step assigns once validation has passed. *)
Definition terms_of (i : ASCVDInput) : Terms :=
  let a := ln (IZR (age i)) in
  let s := ln (IZR (systolic_bp i)) in
  let tr := if hypertensive i then s else 0 in
  let nt := if hypertensive i then 0 else s in
  {| ln_age := a;
     ln_total_chol := ln (IZR (total_cholesterol i));
     ln_hdl := ln (IZR (hdl i));
     tr_ln_sbp := tr;
     nt_ln_sbp := nt;
     age_total_chol := a * ln (IZR (total_cholesterol i));
     age_hdl := a * ln (IZR (hdl i));
     age_tr_sbp := a * tr;
     age_nt_sbp := a * nt;
     age_smoke := if smoker i then a else 0 |}.

Definition branch_of (i : ASCVDInput) : R * R * R :=
  subgroup (is_male i) (is_black i) (smoker i) (diabetic i) (terms_of i).

(** Requests that differ from [i] in one categorical flag. *)
Definition with_smoker (b : bool) (i : ASCVDInput) : ASCVDInput :=
  {| is_male := is_male i; is_black := is_black i; smoker := b;
     hypertensive := hypertensive i; diabetic := diabetic i;
     age := age i; systolic_bp := systolic_bp i;
     diastolic_bp := diastolic_bp i;
     total_cholesterol := total_cholesterol i; hdl := hdl i; ldl := ldl i |}.

Definition with_diabetic (b : bool) (i : ASCVDInput) : ASCVDInput :=
  {| is_male := is_male i; is_black := is_black i; smoker := smoker i;
     hypertensive := hypertensive i; diabetic := b;
     age := age i; systolic_bp := systolic_bp i;
     diastolic_bp := diastolic_bp i;
     total_cholesterol := total_cholesterol i; hdl := hdl i; ldl := ldl i |}.

Definition with_hypertensive (b : bool) (i : ASCVDInput) : ASCVDInput :=
  {| is_male := is_male i; is_black := is_black i; smoker := smoker i;
     hypertensive := b; diabetic := diabetic i;
     age := age i; systolic_bp := systolic_bp i;
     diastolic_bp := diastolic_bp i;
     total_cholesterol := total_cholesterol i; hdl := hdl i; ldl := ldl i |}.

(** Two requests with the same six bounded fields. *)
Definition same_measurements (i j : ASCVDInput) : Prop :=
  age i = age j /\ systolic_bp i = systolic_bp j
  /\ diastolic_bp i = diastolic_bp j
  /\ total_cholesterol i = total_cholesterol j
  /\ hdl i = hdl j /\ ldl i = ldl j.

(** ** Sample requests *)

(** The first reference scenario of the specification. *)
Definition reference_input : ASCVDInput :=
  {| is_male := false; is_black := true; smoker := false;
     hypertensive := false; diabetic := false;
     age := 55; systolic_bp := 120; diastolic_bp := 80;
     total_cholesterol := 213; hdl := 50; ldl := 100 |}.

Definition with_age (a : Z) (i : ASCVDInput) : ASCVDInput :=
  {| is_male := is_male i; is_black := is_black i; smoker := smoker i;
     hypertensive := hypertensive i; diabetic := diabetic i;
     age := a; systolic_bp := systolic_bp i;
     diastolic_bp := diastolic_bp i;
     total_cholesterol := total_cholesterol i; hdl := hdl i; ldl := ldl i |}.

Definition with_unused (d l : Z) (i : ASCVDInput) : ASCVDInput :=
  {| is_male := is_male i; is_black := is_black i; smoker := smoker i;
     hypertensive := hypertensive i; diabetic := diabetic i;
     age := age i; systolic_bp := systolic_bp i;
     diastolic_bp := d;
     total_cholesterol := total_cholesterol i; hdl := hdl i; ldl := l |}.

(** A treated black woman of 40 with the highest blood pressure and total
    cholesterol and the lowest HDL of the accepted ranges. *)
Definition black_female_40 : ASCVDInput :=
  {| is_male := false; is_black := true; smoker := true;
     hypertensive := true; diabetic := true;
     age := 40; systolic_bp := 200; diastolic_bp := 80;
     total_cholesterol := 320; hdl := 20; ldl := 100 |}.

Definition black_female_79 : ASCVDInput := with_age 79 black_female_40.

Definition white_male_55 : ASCVDInput :=
  {| is_male := true; is_black := false; smoker := true;
     hypertensive := false; diabetic := false;
     age := 55; systolic_bp := 120; diastolic_bp := 80;
     total_cholesterol := 213; hdl := 50; ldl := 100 |}.

(** ** Certified bounds on [exp] and [ln]

    [exp x] is bounded from below by [(1 + x / 2^k) ^ (2^k)], computed by
    [k] squarings in fixed-point arithmetic rounded down. *)

Fixpoint rsq (n : nat) (x : R) : R :=
  match n with
  | O => x
  | S n' => rsq n' (x * x)
  end.

Definition scale : Z := 2 ^ 80.

Definition halvings : nat := 20.

Fixpoint sq_down (n : nat) (a : Z) : Z :=
  match n with
  | O => a
  | S n' => sq_down n' (a * a / scale)
  end.

Definition exp_lo_arg (p den : Z) : Z :=
  (scale + p * scale / (den * 2 ^ Z.of_nat halvings))%Z.

Definition exp_lo (p den : Z) : Z := sq_down halvings (exp_lo_arg p den).

(** Closes the side conditions of the bound lemmas by computation. *)
Ltac certify := vm_compute; congruence.

(** * Properties *)

(** ** Rounding *)

Section Rounding.

Lemma py_round_near (x : R) :
  IZR (py_round x) - 1 / 2 <= x <= IZR (py_round x) + 1 / 2.
Proof.
  unfold py_round.
  destruct (base_Int_part x) as [Hlo Hhi].
  destruct (Rlt_dec (x - IZR (Int_part x)) (1 / 2)) as [Hd|Hd].
  - lra.
  - destruct (Rlt_dec (1 / 2) (x - IZR (Int_part x))) as [Hu|Hu].
    + rewrite plus_IZR. lra.
    + destruct (Z.even (Int_part x)); [|rewrite plus_IZR]; lra.
Qed.

Lemma IZR_gap (a b : Z) : IZR a < IZR b + 1 -> (a <= b)%Z.
Proof.
  intro H. apply Z.lt_succ_r, lt_IZR.
  unfold Z.succ. rewrite plus_IZR. exact H.
Qed.

Lemma py_round_unique (n : Z) (x : R) :
  IZR n - 1 / 2 < x < IZR n + 1 / 2 -> py_round x = n.
Proof.
  intros [Hlo Hhi].
  destruct (py_round_near x) as [Rlo Rhi].
  apply Z.le_antisymm; apply IZR_gap; lra.
Qed.

Lemma py_round_IZR (n : Z) : py_round (IZR n) = n.
Proof. apply py_round_unique. lra. Qed.

Lemma py_round_mono (x y : R) : x <= y -> (py_round x <= py_round y)%Z.
Proof.
  intro Hxy.
  destruct (Z.le_gt_cases (py_round x) (py_round y)) as [H|H]; [exact H|].
  destruct (py_round_near x) as [Xlo _].
  destruct (py_round_near y) as [_ Yhi].
  assert (Hs : IZR (py_round y) + 1 <= IZR (py_round x)).
  { rewrite <- plus_IZR. apply IZR_le. lia. }
  assert (Heq : x = y) by lra.
  rewrite Heq in H. lia.
Qed.

Lemma py_round_range (lo hi : Z) (x : R) :
  IZR lo <= x <= IZR hi -> (lo <= py_round x <= hi)%Z.
Proof.
  intros [Hlo Hhi]. split.
  - rewrite <- (py_round_IZR lo). apply py_round_mono; exact Hlo.
  - rewrite <- (py_round_IZR hi). apply py_round_mono; exact Hhi.
Qed.

Lemma Int_part_half (n : Z) : Int_part (IZR n + 1 / 2) = n.
Proof.
  destruct (base_Int_part (IZR n + 1 / 2)) as [Hlo Hhi].
  apply Z.le_antisymm; apply IZR_gap; lra.
Qed.

Lemma py_round_tie (n : Z) :
  py_round (IZR n + 1 / 2) = if Z.even n then n else (n + 1)%Z.
Proof.
  unfold py_round. rewrite Int_part_half.
  destruct (Rlt_dec (IZR n + 1 / 2 - IZR n) (1 / 2)) as [H|_]; [lra|].
  destruct (Rlt_dec (1 / 2) (IZR n + 1 / 2 - IZR n)) as [H|_]; [lra|].
  reflexivity.
Qed.

Example py_round_half : py_round (0 + 1 / 2) = 0%Z.
Proof. apply (py_round_tie 0). Qed.

Example py_round_three_halves : py_round (1 + 1 / 2) = 2%Z.
Proof. apply (py_round_tie 1). Qed.

Example py_round_five_halves : py_round (2 + 1 / 2) = 2%Z.
Proof. apply (py_round_tie 2). Qed.

End Rounding.

(** ** Validation *)

Section Validation.

Lemma range_check_passes (lo hi x : Z) :
  (lo <= x <= hi)%Z -> negb ((lo <=? x)%Z && (x <=? hi)%Z) = false.
Proof.
  intros [H1 H2].
  apply Z.leb_le in H1. apply Z.leb_le in H2.
  rewrite H1, H2. reflexivity.
Qed.

Lemma in_range_iff (i : ASCVDInput) (f : Field) :
  in_range i f = true <-> (field_min f <= field_value i f <= field_max f)%Z.
Proof.
  unfold in_range. rewrite andb_true_iff, !Z.leb_le. tauto.
Qed.

Lemma valid_iff_in_range (i : ASCVDInput) :
  valid i <-> forall f, in_range i f = true.
Proof.
  split.
  - intros (Ha & Hs & Hd & Ht & Hh & Hl) f.
    apply in_range_iff. destruct f; simpl; assumption.
  - intro H. unfold valid.
    pose proof (proj1 (in_range_iff i Age) (H Age)).
    pose proof (proj1 (in_range_iff i SystolicBP) (H SystolicBP)).
    pose proof (proj1 (in_range_iff i DiastolicBP) (H DiastolicBP)).
    pose proof (proj1 (in_range_iff i TotalCholesterol) (H TotalCholesterol)).
    pose proof (proj1 (in_range_iff i Hdl) (H Hdl)).
    pose proof (proj1 (in_range_iff i Ldl) (H Ldl)).
    simpl in *. tauto.
Qed.

Lemma first_violation_none (i : ASCVDInput) :
  first_violation i = None <-> valid i.
Proof.
  rewrite valid_iff_in_range. unfold first_violation. split.
  - intros H f.
    pose proof (find_none _ _ H f) as Hf. simpl in Hf.
    destruct (in_range i f); [reflexivity|].
    assert (Hin : In f fields_in_order)
      by (destruct f; simpl; tauto).
    specialize (Hf Hin). discriminate.
  - intro H. simpl. rewrite !H. reflexivity.
Qed.

Lemma math_log_pos (x : Z) : (0 < x)%Z -> math_log x = Ok (ln (IZR x)).
Proof.
  intro H. unfold math_log.
  destruct (x <=? 0)%Z eqn:E; [apply Z.leb_le in E; lia | reflexivity].
Qed.

Lemma transform_valid (i : ASCVDInput) :
  valid i ->
  transform (smoker i) (hypertensive i) (age i) (systolic_bp i)
    (total_cholesterol i) (hdl i) = Ok (terms_of i).
Proof.
  intros (Ha & Hs & _ & Ht & Hh & _).
  unfold transform, terms_of.
  rewrite (math_log_pos (age i)), (math_log_pos (total_cholesterol i)),
    (math_log_pos (hdl i)) by lia.
  simpl. destruct (hypertensive i); simpl;
    rewrite (math_log_pos (systolic_bp i)) by lia; reflexivity.
Qed.

Lemma calculate_ascvd_risk_valid (i : ASCVDInput) :
  valid i ->
  calculate_ascvd_risk (is_male i) (is_black i) (smoker i) (hypertensive i)
    (diabetic i) (age i) (systolic_bp i) (diastolic_bp i)
    (total_cholesterol i) (hdl i) (ldl i)
  = Ok (let '(s010, mnxb, predict) := branch_of i in
        output s010 mnxb predict).
Proof.
  intro Hv. pose proof Hv as (Ha & Hs & Hd & Ht & Hh & Hl).
  unfold calculate_ascvd_risk.
  rewrite !range_check_passes by assumption.
  rewrite (transform_valid i Hv). simpl. unfold branch_of.
  destruct (subgroup _ _ _ _ _) as [[s m] p]. reflexivity.
Qed.

Lemma calculate_risk_valid (i : ASCVDInput) :
  valid i ->
  calculate_risk i
  = Ok {| ascvd_risk := let '(s010, mnxb, predict) := branch_of i in
                        output s010 mnxb predict |}.
Proof.
  intro Hv. unfold calculate_risk.
  rewrite (calculate_ascvd_risk_valid i Hv). reflexivity.
Qed.

Lemma calculate_risk_violation (i : ASCVDInput) (f : Field) :
  first_violation i = Some f ->
  calculate_risk i = Raise (HTTPException 400 (validation_detail f)).
Proof.
  unfold first_violation, calculate_risk, calculate_ascvd_risk, in_range.
  simpl.
  destruct (negb ((40 <=? age i)%Z && (age i <=? 79)%Z));
    [intro H; injection H as <-; reflexivity|].
  destruct (negb ((90 <=? systolic_bp i)%Z && (systolic_bp i <=? 200)%Z));
    [intro H; injection H as <-; reflexivity|].
  destruct (negb ((60 <=? diastolic_bp i)%Z && (diastolic_bp i <=? 130)%Z));
    [intro H; injection H as <-; reflexivity|].
  destruct (negb ((130 <=? total_cholesterol i)%Z
                  && (total_cholesterol i <=? 320)%Z));
    [intro H; injection H as <-; reflexivity|].
  destruct (negb ((20 <=? hdl i)%Z && (hdl i <=? 100)%Z));
    [intro H; injection H as <-; reflexivity|].
  destruct (negb ((30 <=? ldl i)%Z && (ldl i <=? 300)%Z));
    [intro H; injection H as <-; reflexivity|].
  discriminate.
Qed.

End Validation.

Section ValidationClaims.

Lemma first_violation_out_of_range (i : ASCVDInput) (f : Field) :
  first_violation i = Some f -> in_range i f = false.
Proof.
  intro H. apply find_some in H. destruct H as [_ H].
  apply negb_true_iff in H. exact H.
Qed.

Lemma succeeds_iff_valid (i : ASCVDInput) :
  (exists r, calculate_risk i = Ok r) <-> valid i.
Proof.
  split.
  - intros [r Hr].
    destruct (first_violation i) as [f|] eqn:E.
    + rewrite (calculate_risk_violation i f E) in Hr. discriminate.
    + apply first_violation_none; exact E.
  - intro Hv. eexists. apply calculate_risk_valid; exact Hv.
Qed.

Lemma fails_iff_violation (i : ASCVDInput) (e : exn) :
  calculate_risk i = Raise e <->
  exists f, first_violation i = Some f
            /\ e = HTTPException 400 (validation_detail f).
Proof.
  split.
  - intro He.
    destruct (first_violation i) as [f|] eqn:E.
    + exists f. split; [reflexivity|].
      rewrite (calculate_risk_violation i f E) in He.
      injection He as <-. reflexivity.
    + apply first_violation_none in E.
      rewrite (calculate_risk_valid i E) in He. discriminate.
  - intros (f & Hf & ->). apply calculate_risk_violation; exact Hf.
Qed.

Lemma valid_set_field (i : ASCVDInput) (f : Field) (v : Z) :
  valid i ->
  valid (set_field f v i) <-> (field_min f <= v <= field_max f)%Z.
Proof.
  unfold valid. intros (Ha & Hs & Hd & Ht & Hh & Hl).
  destruct f; simpl; tauto.
Qed.

End ValidationClaims.

(** C4: [calculate_risk] raises the 400 validation error exactly when some
    bounded field is outside its inclusive range; the error raised is the
    one of the first violating field in the order age, systolic BP,
    diastolic BP, total cholesterol, HDL, LDL; and changing one field of an
    accepted request keeps it accepted exactly when the new value lies
    between the field's minimum and maximum, both included. *)
Theorem validation_first_violation (i : ASCVDInput) :
  ((exists d, calculate_risk i = Raise (HTTPException 400 d))
   <-> exists f, in_range i f = false)
  /\ ((exists e, calculate_risk i = Raise e)
      <-> exists d, calculate_risk i = Raise (HTTPException 400 d))
  /\ (forall f, first_violation i = Some f ->
        calculate_risk i = Raise (HTTPException 400 (validation_detail f)))
  /\ (forall f v, valid i ->
        ((exists r, calculate_risk (set_field f v i) = Ok r)
         <-> (field_min f <= v <= field_max f)%Z)).
Proof.
  split; [split | split; [split | split]].
  - intros [d Hd]. apply fails_iff_violation in Hd.
    destruct Hd as (f & Hf & _).
    exists f. apply first_violation_out_of_range; exact Hf.
  - intros [f Hf].
    destruct (first_violation i) as [g|] eqn:E.
    + eexists. apply calculate_risk_violation; exact E.
    + apply first_violation_none in E.
      rewrite valid_iff_in_range in E. rewrite (E f) in Hf. discriminate.
  - intros [e He]. apply fails_iff_violation in He.
    destruct He as (f & Hf & ->).
    eexists. apply calculate_risk_violation; exact Hf.
  - intros [d Hd]. eexists; exact Hd.
  - intros f Hf. apply calculate_risk_violation; exact Hf.
  - intros f v Hv.
    rewrite succeeds_iff_valid. apply valid_set_field; exact Hv.
Qed.

(** For [validation_first_violation]: the reference request with its age
    moved to the lower boundary is accepted. *)
Lemma validation_first_violation_witness :
  valid reference_input
  /\ exists r, calculate_risk (set_field Age 40 reference_input) = Ok r.
Proof.
  split.
  - unfold valid; simpl; lia.
  - apply (proj2 (proj2 (proj2 (validation_first_violation reference_input)))
             Age 40%Z).
    + unfold valid; simpl; lia.
    + simpl; lia.
Defined.

(** C5, as stated, fails: the message raised for age 39 does not carry the
    value 39. *)
Lemma validation_message_omits_value :
  exists d,
    calculate_risk (set_field Age 39 reference_input)
    = Raise (HTTPException 400 d)
    /\ contains (str 39) d = false.
Proof.
  eexists. split; reflexivity.
Qed.

(** C5, amended: whenever [calculate_risk] fails, the error is the 400
    error of the first violating field.  Its message is the fixed text
    "<field> must be between <min> and <max><unit>." of that field: it
    names the field and both bounds of its valid range, and every request
    with the same first violating field gets the same message, so the
    message does not vary with the offending value. *)
Theorem validation_message (i : ASCVDInput) (e : exn) :
  calculate_risk i = Raise e ->
  exists f,
    first_violation i = Some f
    /\ e = HTTPException 400 (validation_detail f)
    /\ contains (field_label f) (validation_detail f) = true
    /\ contains (str (field_min f)) (validation_detail f) = true
    /\ contains (str (field_max f)) (validation_detail f) = true
    /\ validation_detail f
       = field_label f ++ " must be between " ++ str (field_min f)
         ++ " and " ++ str (field_max f) ++ field_unit f ++ "."
    /\ (forall j, first_violation j = Some f -> calculate_risk j = Raise e).
Proof.
  intro He. apply fails_iff_violation in He.
  destruct He as (f & Hf & ->).
  exists f.
  split; [exact Hf|]. split; [reflexivity|].
  split; [destruct f; reflexivity|].
  split; [destruct f; reflexivity|].
  split; [destruct f; reflexivity|].
  split; [destruct f; reflexivity|].
  intros j Hj. apply calculate_risk_violation; exact Hj.
Qed.

Lemma validation_message_witness :
  exists f,
    first_violation (set_field Hdl 101 reference_input) = Some f
    /\ HTTPException 400 "HDL cholesterol must be between 20 and 100 mg/dL."
       = HTTPException 400 (validation_detail f)
    /\ contains (field_label f) (validation_detail f) = true
    /\ contains (str (field_min f)) (validation_detail f) = true
    /\ contains (str (field_max f)) (validation_detail f) = true
    /\ validation_detail f
       = field_label f ++ " must be between " ++ str (field_min f)
         ++ " and " ++ str (field_max f) ++ field_unit f ++ "."
    /\ (forall j, first_violation j = Some f ->
        calculate_risk j
        = Raise (HTTPException 400
                   "HDL cholesterol must be between 20 and 100 mg/dL.")).
Proof.
  apply (validation_message (set_field Hdl 101 reference_input)).
  reflexivity.
Defined.

(** ** Subgroup selection and the formula *)

Section Formula.

Lemma branch_of_spec (i : ASCVDInput) :
  branch_of i
  = (cs_s010 (coefficients (select_subgroup (is_black i) (is_male i))),
     cs_meanXB (coefficients (select_subgroup (is_black i) (is_male i))),
     spec_predict i).
Proof.
  unfold branch_of, subgroup, spec_predict, terms_of.
  destruct (is_black i), (is_male i); simpl; f_equal;
    destruct (smoker i), (hypertensive i), (diabetic i); lra.
Qed.

Lemma ln_gt_0 (x : Z) : (2 <= x)%Z -> 0 < ln (IZR x).
Proof.
  intro H. rewrite <- ln_1. apply ln_increasing; [lra|].
  apply IZR_lt. lia.
Qed.

End Formula.

(** C1: on every request whose six bounded fields are in range,
    [calculate_risk] returns [round(risk * 1000) / 10] with
    [risk = 1 - s010 ^ exp(predict - meanXB)], where [predict] is the
    selected subgroup's linear combination of the transformed terms plus
    the smoker and diabetic constants when those flags are set, and
    [s010], [meanXB] are that subgroup's constants. *)
Theorem calculate_risk_formula (i : ASCVDInput) :
  valid i ->
  calculate_risk i = Ok {| ascvd_risk := spec_risk_percent i |}.
Proof.
  intro Hv. rewrite (calculate_risk_valid i Hv), branch_of_spec.
  reflexivity.
Qed.

Lemma calculate_risk_formula_witness :
  valid reference_input
  /\ calculate_risk reference_input
     = Ok {| ascvd_risk := spec_risk_percent reference_input |}.
Proof.
  split.
  - unfold valid; simpl; lia.
  - apply (calculate_risk_formula reference_input). unfold valid; simpl; lia.
Defined.



(** ** Which terms each branch contains *)

Section TermSets.

Lemma squared_term_non_black_female : includes_ln_age_squared false false.
Proof.
  exists false, false,
    {| ln_age := 0; ln_total_chol := 0; ln_hdl := 0; tr_ln_sbp := 0;
       nt_ln_sbp := 0; age_total_chol := 0; age_hdl := 0;
       age_tr_sbp := 0; age_nt_sbp := 0; age_smoke := 0 |}, 1.
  unfold predict_of, subgroup, with_ln_age; simpl. lra.
Qed.

Lemma no_squared_term_otherwise (is_male is_black : bool) :
  is_male = true \/ is_black = true ->
  ~ includes_ln_age_squared is_male is_black.
Proof.
  intros Hor (sm & di & t & d & H). apply H. clear H.
  unfold predict_of, subgroup, with_ln_age.
  destruct is_male, is_black; simpl;
    try (destruct Hor; discriminate); lra.
Qed.

Lemma age_smoke_term_non_black (is_male : bool) :
  includes_age_smoke is_male false.
Proof.
  exists false, false,
    {| ln_age := 0; ln_total_chol := 0; ln_hdl := 0; tr_ln_sbp := 0;
       nt_ln_sbp := 0; age_total_chol := 0; age_hdl := 0;
       age_tr_sbp := 0; age_nt_sbp := 0; age_smoke := 0 |}, 1.
  unfold predict_of, subgroup, with_age_smoke.
  destruct is_male; simpl; lra.
Qed.

Lemma no_age_smoke_term_black (is_male : bool) :
  ~ includes_age_smoke is_male true.
Proof.
  intros (sm & di & t & x & H). apply H. clear H.
  unfold predict_of, subgroup, with_age_smoke.
  destruct is_male; simpl; reflexivity.
Qed.

End TermSets.

(** C3, as stated, fails: the black female branch has neither the squared
    [ln_age] term nor the [age_smoke] term, and the non-black male branch
    has the [age_smoke] term. *)
Lemma female_male_term_asymmetry_fails :
  ~ includes_ln_age_squared false true
  /\ ~ includes_age_smoke false true
  /\ includes_age_smoke true false.
Proof.
  split; [|split].
  - apply no_squared_term_otherwise. right; reflexivity.
  - apply no_age_smoke_term_black.
  - apply age_smoke_term_non_black.
Qed.

(** C3, amended: the squared [ln_age] term is in the predictor of the
    non-black female branch only, and the [age_smoke] term is in the
    predictors of the two non-black branches (female and male) and of
    neither black branch. *)
Theorem branch_term_sets (is_male is_black : bool) :
  (includes_ln_age_squared is_male is_black
   <-> is_male = false /\ is_black = false)
  /\ (includes_age_smoke is_male is_black <-> is_black = false).
Proof.
  split; split.
  - intro H. destruct is_male, is_black; try (split; reflexivity);
      exfalso; revert H; apply no_squared_term_otherwise; auto.
  - intros [-> ->]. apply squared_term_non_black_female.
  - intro H. destruct is_black; [|reflexivity].
    exfalso; revert H; apply no_age_smoke_term_black.
  - intros ->. apply age_smoke_term_non_black.
Qed.

(** ** The hypertension split and the unused fields *)

(** C6: on every valid request the transform step yields exactly one
    non-zero value among [tr_ln_sbp] and [nt_ln_sbp], chosen by the
    [hypertensive] flag: the treated one is [ln(systolic_bp)] and the
    untreated one 0 when the flag is set, the other way round when it is
    not; [ln(systolic_bp)] is positive. *)
Theorem hypertension_mutual_exclusion (i : ASCVDInput) :
  valid i ->
  exists t,
    transform (smoker i) (hypertensive i) (age i) (systolic_bp i)
      (total_cholesterol i) (hdl i) = Ok t
    /\ 0 < ln (IZR (systolic_bp i))
    /\ (hypertensive i = true ->
        tr_ln_sbp t = ln (IZR (systolic_bp i)) /\ nt_ln_sbp t = 0)
    /\ (hypertensive i = false ->
        nt_ln_sbp t = ln (IZR (systolic_bp i)) /\ tr_ln_sbp t = 0)
    /\ ((tr_ln_sbp t <> 0 /\ nt_ln_sbp t = 0)
        \/ (tr_ln_sbp t = 0 /\ nt_ln_sbp t <> 0)).
Proof.
  intro Hv. exists (terms_of i).
  assert (Hpos : 0 < ln (IZR (systolic_bp i))).
  { apply ln_gt_0. destruct Hv as (_ & Hs & _). lia. }
  split; [apply transform_valid; exact Hv|].
  split; [exact Hpos|].
  unfold terms_of; simpl.
  destruct (hypertensive i); repeat split; try discriminate.
  - left. split; [lra | reflexivity].
  - right. split; [reflexivity | lra].
Qed.

Lemma hypertension_mutual_exclusion_witness :
  valid reference_input
  /\ exists t,
       transform (smoker reference_input) (hypertensive reference_input)
         (age reference_input) (systolic_bp reference_input)
         (total_cholesterol reference_input) (hdl reference_input) = Ok t
       /\ 0 < ln (IZR (systolic_bp reference_input))
       /\ (hypertensive reference_input = true ->
           tr_ln_sbp t = ln (IZR (systolic_bp reference_input))
           /\ nt_ln_sbp t = 0)
       /\ (hypertensive reference_input = false ->
           nt_ln_sbp t = ln (IZR (systolic_bp reference_input))
           /\ tr_ln_sbp t = 0)
       /\ ((tr_ln_sbp t <> 0 /\ nt_ln_sbp t = 0)
           \/ (tr_ln_sbp t = 0 /\ nt_ln_sbp t <> 0)).
Proof.
  split.
  - unfold valid; simpl; lia.
  - apply (hypertension_mutual_exclusion reference_input).
    unfold valid; simpl; lia.
Defined.

Lemma branch_of_agree (i j : ASCVDInput) :
  agree_except_unused i j -> branch_of i = branch_of j.
Proof.
  intros (Hm & Hb & Hs & Hh & Hd & Ha & Hp & Ht & Hl).
  unfold branch_of, terms_of.
  rewrite Hm, Hb, Hs, Hh, Hd, Ha, Hp, Ht, Hl. reflexivity.
Qed.

(** C9: two valid requests that agree on every field except
    [diastolic_bp] and [ldl] get the same result: the two fields are
    validated and otherwise unused. *)
Theorem unused_fields_do_not_matter (i j : ASCVDInput) :
  valid i -> valid j -> agree_except_unused i j ->
  calculate_risk i = calculate_risk j.
Proof.
  intros Hi Hj Hagree.
  rewrite (calculate_risk_valid i Hi), (calculate_risk_valid j Hj).
  rewrite (branch_of_agree i j Hagree). reflexivity.
Qed.

Lemma unused_fields_do_not_matter_witness :
  (valid reference_input
   /\ valid (with_unused 130 30 reference_input)
   /\ agree_except_unused reference_input
        (with_unused 130 30 reference_input))
  /\ calculate_risk reference_input
     = calculate_risk (with_unused 130 30 reference_input).
Proof.
  assert (H1 : valid reference_input) by (unfold valid; simpl; lia).
  assert (H2 : valid (with_unused 130 30 reference_input))
    by (unfold valid; simpl; lia).
  assert (H3 : agree_except_unused reference_input
                 (with_unused 130 30 reference_input))
    by (unfold agree_except_unused; simpl; repeat split; reflexivity).
  split.
  - split; [exact H1 | split; [exact H2 | exact H3]].
  - exact (unused_fields_do_not_matter reference_input
             (with_unused 130 30 reference_input) H1 H2 H3).
Defined.

(** ** Certified numeric bounds *)

Section ExpBounds.

Lemma rsq_exp (n : nat) (x : R) : rsq n (exp x) = exp (x * 2 ^ n).
Proof.
  revert x; induction n as [|n IH]; intro x; simpl.
  - f_equal; lra.
  - rewrite <- exp_plus, IH. f_equal; lra.
Qed.

Lemma rsq_le (n : nat) (x y : R) : 0 <= x -> x <= y -> rsq n x <= rsq n y.
Proof.
  revert x y; induction n as [|n IH]; intros x y Hx Hxy; simpl;
    [exact Hxy|].
  apply IH; nra.
Qed.

Lemma scale_pos : (0 < scale)%Z.
Proof. reflexivity. Qed.

Lemma IZR_scale_pos : 0 < IZR scale.
Proof. apply IZR_lt, scale_pos. Qed.

Lemma floor_div_le (a d : Z) : (0 < d)%Z -> IZR (a / d) <= IZR a / IZR d.
Proof.
  intro Hd.
  assert (Hd' : 0 < IZR d) by (apply IZR_lt; exact Hd).
  apply Rmult_le_reg_r with (IZR d); [exact Hd'|].
  unfold Rdiv. rewrite Rmult_assoc, Rinv_l, Rmult_1_r by lra.
  rewrite <- mult_IZR. apply IZR_le.
  rewrite Z.mul_comm. apply Z.mul_div_le; exact Hd.
Qed.

Lemma sq_down_sound (n : nat) (a : Z) :
  (0 <= a)%Z ->
  (0 <= sq_down n a)%Z
  /\ IZR (sq_down n a) / IZR scale <= rsq n (IZR a / IZR scale).
Proof.
  revert a; induction n as [|n IH]; intros a Ha; simpl.
  - split; [exact Ha | lra].
  - assert (Hq : (0 <= a * a / scale)%Z)
      by (apply Z.div_pos; [nia | exact scale_pos]).
    destruct (IH _ Hq) as [H0 H1]. split; [exact H0|].
    eapply Rle_trans; [exact H1|].
    pose proof IZR_scale_pos as Hs.
    pose proof (floor_div_le (a * a) scale scale_pos) as Hf.
    rewrite mult_IZR in Hf.
    apply IZR_le in Hq. revert Hq Hf Hs.
    generalize (IZR (a * a / scale)) (IZR a) (IZR scale).
    intros q r s Hq Hf Hs.
    assert (Hi : 0 < / s) by (apply Rinv_0_lt_compat; exact Hs).
    apply rsq_le.
    + apply Rmult_le_pos; lra.
    + unfold Rdiv in *.
      replace (r * / s * (r * / s)) with (r * r * / s * / s) by ring.
      apply Rmult_le_compat_r; lra.
Qed.

Lemma exp_lo_sound (p den : Z) :
  (0 < den)%Z -> (0 <= exp_lo_arg p den)%Z ->
  IZR (exp_lo p den) / IZR scale <= exp (IZR p / IZR den).
Proof.
  intros Hden Ha. unfold exp_lo.
  destruct (sq_down_sound halvings _ Ha) as [_ H].
  eapply Rle_trans; [exact H|]. clear H.
  unfold exp_lo_arg in *.
  set (d := (den * 2 ^ Z.of_nat halvings)%Z) in *.
  assert (Hd : (0 < d)%Z)
    by (subst d; apply Z.mul_pos_pos; [exact Hden | reflexivity]).
  assert (Hpow : IZR d = IZR den * 2 ^ halvings)
    by (subst d; rewrite mult_IZR, <- pow_IZR; reflexivity).
  pose proof (floor_div_le (p * scale) d Hd) as Hf.
  rewrite mult_IZR in Hf.
  apply IZR_le in Ha. rewrite plus_IZR in *.
  apply IZR_lt in Hd, Hden.
  pose proof IZR_scale_pos as Hs.
  revert Ha Hf Hd Hden Hpow Hs.
  generalize (IZR (p * scale / d)) (IZR d) (IZR den) (IZR p) (IZR scale).
  intros q rd rden rp s Ha Hf Hd Hden Hpow Hs.
  assert (Hi : 0 < / s) by (apply Rinv_0_lt_compat; exact Hs).
  assert (Hay : (s + q) / s <= 1 + rp / rd).
  { apply Rmult_le_reg_r with s; [exact Hs|].
    unfold Rdiv in *. rewrite Rmult_assoc, Rinv_l, Rmult_1_r by lra.
    replace ((1 + rp * / rd) * s) with (s + rp * s * / rd) by ring.
    lra. }
  assert (Ha0 : 0 <= (s + q) / s)
    by (unfold Rdiv; apply Rmult_le_pos; lra).
  eapply Rle_trans; [apply rsq_le; [exact Ha0 | exact Hay]|].
  eapply Rle_trans; [apply rsq_le; [lra | apply exp_ineq1_le]|].
  rewrite rsq_exp. right. f_equal. rewrite Hpow.
  assert (H2 : 2 ^ halvings <> 0) by (apply pow_nonzero; lra).
  revert H2. generalize (2 ^ halvings). intros w Hw.
  field. split; [lra | exact Hw].
Qed.

Lemma exp_lower (n p den : Z) :
  (0 < den)%Z -> (0 <= exp_lo_arg p den)%Z ->
  (n * scale <= exp_lo p den)%Z ->
  IZR n <= exp (IZR p / IZR den).
Proof.
  intros Hden Ha Hc.
  eapply Rle_trans; [|apply (exp_lo_sound p den Hden Ha)].
  pose proof IZR_scale_pos as Hs.
  apply IZR_le in Hc. rewrite mult_IZR in Hc.
  revert Hc Hs. generalize (IZR (exp_lo p den)) (IZR scale) (IZR n).
  intros e s r Hc Hs.
  apply Rmult_le_reg_r with s; [exact Hs|].
  unfold Rdiv. rewrite Rmult_assoc, Rinv_l, Rmult_1_r by lra. exact Hc.
Qed.

Lemma exp_upper (n p den : Z) :
  (0 < n)%Z -> (0 < den)%Z -> (0 <= exp_lo_arg (- p) den)%Z ->
  (scale <= n * exp_lo (- p) den)%Z ->
  exp (IZR p / IZR den) <= IZR n.
Proof.
  intros Hn Hden Ha Hc.
  pose proof (exp_lo_sound (- p) den Hden Ha) as He.
  rewrite opp_IZR in He.
  replace (- IZR p / IZR den) with (- (IZR p / IZR den)) in He
    by (unfold Rdiv; ring).
  rewrite exp_Ropp in He.
  pose proof (exp_pos (IZR p / IZR den)) as Hx.
  pose proof IZR_scale_pos as Hs.
  apply IZR_le in Hc. rewrite mult_IZR in Hc. apply IZR_lt in Hn.
  revert He Hc Hs Hn Hx.
  generalize (IZR (exp_lo (- p) den)) (IZR scale) (IZR n)
    (exp (IZR p / IZR den)).
  intros e s r x He Hc Hs Hn Hx.
  assert (H1 : / r <= / x).
  { eapply Rle_trans; [|exact He].
    apply Rmult_le_reg_r with (s * r); [nra|].
    unfold Rdiv.
    replace (/ r * (s * r)) with s by (field; lra).
    replace (e * / s * (s * r)) with (r * e) by (field; lra).
    exact Hc. }
  apply Rinv_le_contravar in H1; [|apply Rinv_0_lt_compat; exact Hn].
  rewrite !Rinv_inv in H1. exact H1.
Qed.

Lemma ln_upper (y u den : Z) :
  (0 < y)%Z -> (0 < den)%Z -> (0 <= exp_lo_arg u den)%Z ->
  (y * scale <= exp_lo u den)%Z ->
  ln (IZR y) <= IZR u / IZR den.
Proof.
  intros Hy Hden Ha Hc.
  pose proof (exp_lower y u den Hden Ha Hc) as [H|H].
  - left. rewrite <- (ln_exp (IZR u / IZR den)).
    apply ln_increasing; [apply IZR_lt; exact Hy | exact H].
  - right. rewrite H. apply ln_exp.
Qed.

Lemma ln_lower (y l den : Z) :
  (0 < y)%Z -> (0 < den)%Z -> (0 <= exp_lo_arg (- l) den)%Z ->
  (scale <= y * exp_lo (- l) den)%Z ->
  IZR l / IZR den <= ln (IZR y).
Proof.
  intros Hy Hden Ha Hc.
  rewrite <- (ln_exp (IZR l / IZR den)).
  pose proof (exp_upper y l den Hy Hden Ha Hc) as [H|H].
  - left. apply ln_increasing; [apply exp_pos | exact H].
  - right. rewrite H. reflexivity.
Qed.

Lemma ln_IZR_le (x y : Z) :
  (0 < x)%Z -> (x <= y)%Z -> ln (IZR x) <= ln (IZR y).
Proof.
  intros Hx Hxy. apply Zle_lt_or_eq in Hxy. destruct Hxy as [Hlt| ->].
  - left. apply ln_increasing; apply IZR_lt; assumption.
  - right. reflexivity.
Qed.

End ExpBounds.

Section Constants.

Lemma ln_20_lower : 29957 / 10000 <= ln 20.
Proof. apply ln_lower; certify. Qed.

Lemma ln_20_upper : ln 20 <= 29958 / 10000.
Proof. apply ln_upper; certify. Qed.

Lemma ln_40_lower : 36888 / 10000 <= ln 40.
Proof. apply ln_lower; certify. Qed.

Lemma ln_40_upper : ln 40 <= 36889 / 10000.
Proof. apply ln_upper; certify. Qed.

Lemma ln_79_lower : 43694 / 10000 <= ln 79.
Proof. apply ln_lower; certify. Qed.

Lemma ln_79_upper : ln 79 <= 43695 / 10000.
Proof. apply ln_upper; certify. Qed.

Lemma ln_200_lower : 52983 / 10000 <= ln 200.
Proof. apply ln_lower; certify. Qed.

Lemma ln_200_upper : ln 200 <= 52984 / 10000.
Proof. apply ln_upper; certify. Qed.

Lemma ln_320_lower : 57683 / 10000 <= ln 320.
Proof. apply ln_lower; certify. Qed.

Lemma ln_320_upper : ln 320 <= 57684 / 10000.
Proof. apply ln_upper; certify. Qed.

Lemma exp_11_lower : 4000 <= exp (11 / 1).
Proof. apply exp_lower; certify. Qed.

Lemma exp_5_5_lower : 240 <= exp (55 / 10).
Proof. apply exp_lower; certify. Qed.

Lemma exp_3_5_upper : exp (35 / 10) <= 34.
Proof. apply exp_upper; certify. Qed.

Lemma exp_1_7_upper : exp (17 / 10) <= 6.
Proof. apply exp_upper; certify. Qed.

End Constants.

(** ** The output step *)

Section Output.

Lemma exp_le (x y : R) : x <= y -> exp x <= exp y.
Proof.
  intros [H| ->]; [left; apply exp_increasing; exact H | right; reflexivity].
Qed.

Lemma ln_lt_0 (s : R) : 0 < s < 1 -> ln s < 0.
Proof.
  intros [H0 H1]. rewrite <- ln_1. apply ln_increasing; assumption.
Qed.

Lemma Rpower_range (s e : R) : 0 < s < 1 -> 0 < e -> 0 < Rpower s e < 1.
Proof.
  intros Hs He. unfold Rpower. split; [apply exp_pos|].
  rewrite <- exp_0. apply exp_increasing.
  pose proof (ln_lt_0 s Hs). nra.
Qed.

Lemma Rpower_antitone (s e e' : R) :
  0 < s < 1 -> e <= e' -> Rpower s e' <= Rpower s e.
Proof.
  intros Hs He. unfold Rpower. apply exp_le.
  pose proof (ln_lt_0 s Hs). nra.
Qed.

Lemma output_range (s m p : R) : 0 < s < 1 -> 0 <= output s m p <= 100.
Proof.
  intro Hs. unfold output, float_pow, math_exp.
  pose proof (Rpower_range s (exp (p - m)) Hs (exp_pos _)) as Hr.
  set (x := (1 - Rpower s (exp (p - m))) * 1000).
  assert (Hx : IZR 0 <= x <= IZR 1000) by (subst x; lra).
  apply py_round_range in Hx. destruct Hx as [H0 H1].
  apply IZR_le in H0, H1. lra.
Qed.

Lemma output_mono (s m p p' : R) :
  0 < s < 1 -> p <= p' -> output s m p <= output s m p'.
Proof.
  intros Hs Hp. unfold output, float_pow, math_exp.
  assert (He : exp (p - m) <= exp (p' - m)) by (apply exp_le; lra).
  pose proof (Rpower_antitone s _ _ Hs He) as Hr.
  assert (Hx : (1 - Rpower s (exp (p - m))) * 1000
               <= (1 - Rpower s (exp (p' - m))) * 1000) by lra.
  apply py_round_mono, IZR_le in Hx. lra.
Qed.

Lemma branch_s010_range (i : ASCVDInput) :
  0 < fst (fst (branch_of i)) < 1.
Proof.
  unfold branch_of, subgroup.
  destruct (is_black i), (is_male i); simpl; lra.
Qed.

Lemma ln_field_range (x : Z) :
  (20 <= x <= 320)%Z -> 0 <= ln (IZR x) <= 6.
Proof.
  intro H. split.
  - left. apply ln_gt_0. lia.
  - assert (Hle : ln (IZR x) <= ln 320) by (apply ln_IZR_le; lia).
    pose proof ln_320_upper. lra.
Qed.

Lemma product_range (x y : R) :
  0 <= x <= 6 -> 0 <= y <= 6 -> 0 <= x * y <= 36.
Proof. intros Hx Hy. nra. Qed.

Lemma exponent_bounded (i : ASCVDInput) :
  valid i -> snd (branch_of i) - snd (fst (branch_of i)) <= 709.
Proof.
  intros (Ha & Hs & _ & Ht & Hh & _).
  assert (HA : 0 <= ln (IZR (age i)) <= 6) by (apply ln_field_range; lia).
  assert (HS : 0 <= ln (IZR (systolic_bp i)) <= 6)
    by (apply ln_field_range; lia).
  assert (HT : 0 <= ln (IZR (total_cholesterol i)) <= 6)
    by (apply ln_field_range; lia).
  assert (HH : 0 <= ln (IZR (hdl i)) <= 6) by (apply ln_field_range; lia).
  pose proof (product_range _ _ HA HA) as HAA.
  pose proof (product_range _ _ HA HS) as HAS.
  pose proof (product_range _ _ HA HT) as HAT.
  pose proof (product_range _ _ HA HH) as HAH.
  unfold branch_of, subgroup, terms_of.
  destruct (is_black i), (is_male i); simpl;
    destruct (smoker i), (hypertensive i), (diabetic i); lra.
Qed.

End Output.

(** C7: once the six range checks pass, nothing else can fail: every
    argument of [math.log] is at least 20, so the transform step returns
    its terms; the base [s010] lies strictly between 0 and 1 and the
    exponent passed to [math.exp] is at most 709, so the exponentiation is
    defined; and [calculate_risk] returns a result. *)
Theorem total_after_validation (i : ASCVDInput) :
  valid i ->
  (forall x,
      In x [age i; total_cholesterol i; hdl i; systolic_bp i] ->
      (20 <= x)%Z /\ math_log x = Ok (ln (IZR x)))
  /\ (exists t,
         transform (smoker i) (hypertensive i) (age i) (systolic_bp i)
           (total_cholesterol i) (hdl i) = Ok t)
  /\ (exists s010 mnxb predict,
         branch_of i = (s010, mnxb, predict)
         /\ 0 < s010 < 1
         /\ predict - mnxb <= 709
         /\ 0 < float_pow s010 (math_exp (predict - mnxb)) < 1)
  /\ (exists r, calculate_risk i = Ok r).
Proof.
  intro Hv. pose proof Hv as (Ha & Hs & _ & Ht & Hh & _).
  split; [|split; [|split]].
  - intros x Hx.
    assert (H20 : (20 <= x)%Z)
      by (simpl in Hx; destruct Hx as [<-|[<-|[<-|[<-|[]]]]]; lia).
    split; [exact H20 | apply math_log_pos; lia].
  - exists (terms_of i). apply transform_valid; exact Hv.
  - pose proof (branch_s010_range i) as Hr.
    pose proof (exponent_bounded i Hv) as He.
    destruct (branch_of i) as [[s m] p]. simpl in Hr, He.
    exists s, m, p. repeat split; try lra.
    + apply Rpower_range; [exact Hr | apply exp_pos].
    + apply Rpower_range; [exact Hr | apply exp_pos].
  - eexists. apply calculate_risk_valid; exact Hv.
Qed.

Lemma total_after_validation_witness :
  valid reference_input
  /\ exists r, calculate_risk reference_input = Ok r.
Proof.
  split.
  - unfold valid; simpl; lia.
  - apply (total_after_validation reference_input). unfold valid; simpl; lia.
Defined.

(** C8, amended: on every valid request the returned percentage lies in
    the closed interval from 0 to 100; nothing clamps it, and rounding to
    one decimal can return 100 itself. *)
Theorem risk_percent_bounds (i : ASCVDInput) :
  valid i ->
  exists r,
    calculate_risk i = Ok {| ascvd_risk := r |} /\ 0 <= r <= 100.
Proof.
  intro Hv. eexists. split; [apply calculate_risk_valid; exact Hv|].
  pose proof (branch_s010_range i) as Hr.
  destruct (branch_of i) as [[s m] p]. simpl in Hr.
  apply output_range; exact Hr.
Qed.

Lemma risk_percent_bounds_witness :
  valid reference_input
  /\ exists r,
       calculate_risk reference_input = Ok {| ascvd_risk := r |}
       /\ 0 <= r <= 100.
Proof.
  split.
  - unfold valid; simpl; lia.
  - apply (risk_percent_bounds reference_input). unfold valid; simpl; lia.
Defined.

(** ** The black female branch at the edge of the accepted ranges *)

Section Saturation.

Lemma ln_s010_upper : ln 0.95334 <= -0.04666.
Proof.
  pose proof (exp_ineq1_le (ln 0.95334)) as H.
  rewrite exp_ln in H by lra. lra.
Qed.

Lemma ln_s010_lower : -0.049 <= ln 0.95334.
Proof.
  pose proof (exp_ineq1_le (- ln 0.95334)) as H.
  rewrite exp_Ropp, exp_ln in H by lra.
  assert (Hi : / 0.95334 <= 1.049).
  { apply Rmult_le_reg_r with 0.95334; [lra|].
    rewrite Rinv_l by lra. lra. }
  lra.
Qed.

Lemma output_saturates (m p : R) :
  55 / 10 <= p - m -> output 0.95334 m p = 100.
Proof.
  intro Hp. unfold output, float_pow, math_exp, Rpower.
  assert (He : 240 <= exp (p - m)).
  { eapply Rle_trans; [apply exp_5_5_lower | apply exp_le; exact Hp]. }
  pose proof ln_s010_upper as Hl.
  assert (Hx : exp (p - m) * ln 0.95334 <= - (11 / 1)) by nra.
  apply exp_le in Hx. rewrite exp_Ropp in Hx.
  pose proof exp_11_lower as H11.
  assert (Hi : / exp (11 / 1) <= / 4000)
    by (apply Rinv_le_contravar; lra).
  pose proof (exp_pos (exp (p - m) * ln 0.95334)) as H0.
  rewrite (py_round_unique 1000); lra.
Qed.

Lemma output_far_from_saturation (m p : R) :
  p - m <= 35 / 10 -> output 0.95334 m p <= 834 / 10.
Proof.
  intro Hp. unfold output, float_pow, math_exp, Rpower.
  assert (He : exp (p - m) <= 34).
  { eapply Rle_trans; [apply exp_le; exact Hp | apply exp_3_5_upper]. }
  pose proof (exp_pos (p - m)) as He0.
  pose proof ln_s010_lower as Hl.
  pose proof ln_s010_upper as Hu.
  assert (Hx : - (17 / 10) <= exp (p - m) * ln 0.95334) by nra.
  apply exp_le in Hx. rewrite exp_Ropp in Hx.
  pose proof exp_1_7_upper as H17.
  pose proof (exp_pos (17 / 10)) as H17p.
  assert (Hi : / 6 <= / exp (17 / 10))
    by (apply Rinv_le_contravar; lra).
  assert (Hr : (1 - exp (exp (p - m) * ln 0.95334)) * 1000 <= IZR 834) by lra.
  apply py_round_mono in Hr. rewrite py_round_IZR in Hr.
  apply IZR_le in Hr. lra.
Qed.

Lemma black_female_40_branch :
  exists p,
    branch_of black_female_40 = (0.95334, 86.6081, p)
    /\ 55 / 10 <= p - 86.6081.
Proof.
  eexists. split; [reflexivity|].
  cbv [terms_of black_female_40 ln_age ln_total_chol ln_hdl tr_ln_sbp
       nt_ln_sbp age_total_chol age_hdl age_tr_sbp age_nt_sbp age_smoke
       age systolic_bp total_cholesterol hdl hypertensive smoker diabetic].
  pose proof ln_40_lower. pose proof ln_40_upper.
  pose proof ln_20_lower. pose proof ln_20_upper.
  pose proof ln_200_lower. pose proof ln_200_upper.
  pose proof ln_320_lower.
  assert (ln 40 * ln 20 >= 36888 / 10000 * (29957 / 10000)) by nra.
  assert (ln 40 * ln 200 <= 36889 / 10000 * (52984 / 10000)) by nra.
  lra.
Qed.

Lemma black_female_79_branch :
  exists p,
    branch_of black_female_79 = (0.95334, 86.6081, p)
    /\ p - 86.6081 <= 35 / 10.
Proof.
  eexists. split; [reflexivity|].
  cbv [terms_of black_female_79 with_age black_female_40 ln_age
       ln_total_chol ln_hdl tr_ln_sbp
       nt_ln_sbp age_total_chol age_hdl age_tr_sbp age_nt_sbp age_smoke
       age systolic_bp total_cholesterol hdl hypertensive smoker diabetic].
  pose proof ln_79_lower. pose proof ln_79_upper.
  pose proof ln_20_lower. pose proof ln_20_upper.
  pose proof ln_200_lower. pose proof ln_200_upper.
  pose proof ln_320_upper.
  assert (ln 79 * ln 20 <= 43695 / 10000 * (29958 / 10000)) by nra.
  assert (ln 79 * ln 200 >= 43694 / 10000 * (52983 / 10000)) by nra.
  lra.
Qed.

Lemma black_female_40_risk :
  calculate_risk black_female_40 = Ok {| ascvd_risk := 100 |}.
Proof.
  rewrite calculate_risk_valid by (unfold valid; simpl; lia).
  destruct black_female_40_branch as (p & -> & Hp).
  rewrite (output_saturates _ _ Hp). reflexivity.
Qed.

Lemma black_female_79_risk :
  exists r,
    calculate_risk black_female_79 = Ok {| ascvd_risk := r |}
    /\ r <= 834 / 10.
Proof.
  rewrite calculate_risk_valid by (unfold valid; simpl; lia).
  destruct black_female_79_branch as (p & -> & Hp).
  eexists. split; [reflexivity|].
  apply output_far_from_saturation; exact Hp.
Qed.

End Saturation.

(** C8, as stated, fails: a valid request gets exactly 100, which is not
    strictly below 100. *)
Lemma risk_percent_reaches_100 :
  valid black_female_40
  /\ exists r,
       calculate_risk black_female_40 = Ok {| ascvd_risk := r |}
       /\ r = 100
       /\ ~ (0 <= r < 100).
Proof.
  split; [unfold valid; simpl; lia|].
  exists 100. split; [apply black_female_40_risk|].
  split; [reflexivity | lra].
Qed.

(** C10, as stated, fails: in the black female subgroup, with every other
    field fixed, raising the age from 40 to 79 lowers the result from 100
    to at most 83.4. *)
Lemma risk_not_monotone_in_age :
  valid black_female_40
  /\ valid (with_age 79 black_female_40)
  /\ (age black_female_40 <= 79)%Z
  /\ exists r40 r79,
       calculate_risk black_female_40 = Ok {| ascvd_risk := r40 |}
       /\ calculate_risk (with_age 79 black_female_40)
          = Ok {| ascvd_risk := r79 |}
       /\ r79 < r40.
Proof.
  split; [unfold valid; simpl; lia|].
  split; [unfold valid; simpl; lia|].
  split; [simpl; lia|].
  destruct black_female_79_risk as (r79 & H79 & Hle).
  exists 100, r79. split; [apply black_female_40_risk|].
  split; [exact H79 | lra].
Qed.

(** ** Monotonicity in age for the male branches *)

Section MaleMonotone.

Variable i : ASCVDInput.
Variables a b : Z.
Hypothesis Hmale : is_male i = true.
Hypothesis Hva : valid (with_age a i).
Hypothesis Hvb : valid (with_age b i).
Hypothesis Hab : (a <= b)%Z.

Lemma male_constants_fixed :
  fst (branch_of (with_age a i)) = fst (branch_of (with_age b i)).
Proof.
  unfold branch_of, subgroup; simpl.
  destruct (is_black i), (is_male i); reflexivity.
Qed.

Lemma male_predict_monotone :
  snd (branch_of (with_age a i)) <= snd (branch_of (with_age b i)).
Proof.
  destruct Hva as (Ha & _ & _ & Ht & Hh & _).
  destruct Hvb as (Hb & Hs & _ & _ & _ & _).
  simpl in Ha, Hb, Hs, Ht, Hh.
  assert (HA : ln (IZR a) <= ln (IZR b)) by (apply ln_IZR_le; lia).
  assert (HT : ln (IZR (total_cholesterol i)) <= 57684 / 10000).
  { eapply Rle_trans; [apply (ln_IZR_le _ 320); lia | apply ln_320_upper]. }
  assert (HH : 29957 / 10000 <= ln (IZR (hdl i))).
  { eapply Rle_trans; [apply ln_20_lower | apply ln_IZR_le; lia]. }
  assert (HS : 0 < ln (IZR (systolic_bp i))) by (apply ln_gt_0; lia).
  unfold branch_of, subgroup, terms_of; simpl. rewrite Hmale.
  destruct (is_black i); simpl.
  - destruct (smoker i), (hypertensive i), (diabetic i); lra.
  - destruct (smoker i), (hypertensive i), (diabetic i); nra.
Qed.

Lemma male_risk_monotone :
  exists ra rb,
    calculate_risk (with_age a i) = Ok {| ascvd_risk := ra |}
    /\ calculate_risk (with_age b i) = Ok {| ascvd_risk := rb |}
    /\ ra <= rb.
Proof.
  do 2 eexists.
  split; [apply calculate_risk_valid; exact Hva|].
  split; [apply calculate_risk_valid; exact Hvb|].
  pose proof male_constants_fixed as Hc.
  pose proof male_predict_monotone as Hp.
  pose proof (branch_s010_range (with_age a i)) as Hr.
  destruct (branch_of (with_age a i)) as [[sa ma] pa].
  destruct (branch_of (with_age b i)) as [[sb mb] pb].
  simpl in Hc, Hp, Hr. injection Hc as <- <-.
  apply output_mono; assumption.
Qed.

End MaleMonotone.

(** C10, amended: in the two male subgroups, for requests that agree on
    every field except age, a larger age (both ages accepted) never gets a
    smaller risk percentage.  The female subgroups are left out: the black
    female one is not monotone. *)
Theorem risk_monotone_in_age_male (i : ASCVDInput) (a b : Z) :
  is_male i = true ->
  valid (with_age a i) -> valid (with_age b i) -> (a <= b)%Z ->
  exists ra rb,
    calculate_risk (with_age a i) = Ok {| ascvd_risk := ra |}
    /\ calculate_risk (with_age b i) = Ok {| ascvd_risk := rb |}
    /\ ra <= rb.
Proof.
  intros Hm Hva Hvb Hab. exact (male_risk_monotone i a b Hm Hva Hvb Hab).
Qed.

Lemma risk_monotone_in_age_male_witness :
  (is_male white_male_55 = true
   /\ valid (with_age 40 white_male_55)
   /\ valid (with_age 79 white_male_55)
   /\ (40 <= 79)%Z)
  /\ exists ra rb,
       calculate_risk (with_age 40 white_male_55) = Ok {| ascvd_risk := ra |}
       /\ calculate_risk (with_age 79 white_male_55)
          = Ok {| ascvd_risk := rb |}
       /\ ra <= rb.
Proof.
  assert (H1 : is_male white_male_55 = true) by reflexivity.
  assert (H2 : valid (with_age 40 white_male_55))
    by (unfold valid; simpl; lia).
  assert (H3 : valid (with_age 79 white_male_55))
    by (unfold valid; simpl; lia).
  assert (H4 : (40 <= 79)%Z) by lia.
  split.
  - repeat split; assumption || (unfold valid in *; simpl in *; lia).
  - exact (risk_monotone_in_age_male white_male_55 40 79 H1 H2 H3 H4).
Defined.

(** * Further properties of the code *)

(** ** The validation step reads the six bounded fields only *)

Lemma first_violation_same_measurements (i j : ASCVDInput) :
  same_measurements i j -> first_violation i = first_violation j.
Proof.
  intros (Ha & Hs & Hd & Ht & Hh & Hl).
  unfold first_violation, in_range. simpl.
  rewrite Ha, Hs, Hd, Ht, Hh, Hl. reflexivity.
Qed.

(** X1: the error of a rejected request does not depend on the five
    flags: a request with the same six bounded fields is rejected with the
    same error. *)
Theorem rejection_ignores_flags (i j : ASCVDInput) (e : exn) :
  same_measurements i j ->
  calculate_risk i = Raise e -> calculate_risk j = Raise e.
Proof.
  intros Hsame He. apply fails_iff_violation in He.
  destruct He as (f & Hf & ->).
  apply calculate_risk_violation.
  rewrite <- (first_violation_same_measurements i j Hsame). exact Hf.
Qed.

Lemma rejection_ignores_flags_witness :
  same_measurements (set_field Age 39 reference_input)
    (set_field Age 39 white_male_55)
  /\ calculate_risk (set_field Age 39 white_male_55)
     = Raise (HTTPException 400 "Age must be between 40 and 79.").
Proof.
  assert (H : same_measurements (set_field Age 39 reference_input)
                (set_field Age 39 white_male_55))
    by (unfold same_measurements; simpl; repeat split; reflexivity).
  split; [exact H|].
  apply (rejection_ignores_flags (set_field Age 39 reference_input)
           (set_field Age 39 white_male_55) _ H).
  reflexivity.
Defined.

(** ** The output step *)

(** X2: an accepted request gets a whole number of tenths of a percent
    between 0 and 1000 tenths. *)
Theorem risk_percent_in_tenths (i : ASCVDInput) :
  valid i ->
  exists n : Z,
    (0 <= n <= 1000)%Z
    /\ calculate_risk i = Ok {| ascvd_risk := IZR n / 10 |}.
Proof.
  intro Hv. rewrite (calculate_risk_valid i Hv).
  pose proof (branch_s010_range i) as Hr.
  destruct (branch_of i) as [[s m] p]. simpl in Hr.
  unfold output, float_pow, math_exp.
  pose proof (Rpower_range s (exp (p - m)) Hr (exp_pos _)) as Hp.
  eexists. split; [|reflexivity].
  apply py_round_range. simpl. lra.
Qed.

Lemma risk_percent_in_tenths_witness :
  valid reference_input
  /\ exists n : Z,
       (0 <= n <= 1000)%Z
       /\ calculate_risk reference_input = Ok {| ascvd_risk := IZR n / 10 |}.
Proof.
  split.
  - unfold valid; simpl; lia.
  - apply (risk_percent_in_tenths reference_input). unfold valid; simpl; lia.
Defined.

(** X3: with a base strictly between 0 and 1 and exponents at most 709
    (where [math.exp] does not overflow), the output step never decreases
    when the linear predictor grows and never increases when the offset
    [mnxb] grows. *)
Theorem output_monotone (s010 mnxb mnxb' predict predict' : R) :
  0 < s010 < 1 -> predict <= predict' -> mnxb <= mnxb' ->
  predict' - mnxb <= 709 ->
  output s010 mnxb predict <= output s010 mnxb predict'
  /\ output s010 mnxb' predict <= output s010 mnxb predict.
Proof.
  intros Hs Hp Hm _. split; [apply output_mono; assumption|].
  unfold output, float_pow, math_exp.
  assert (He : exp (predict - mnxb') <= exp (predict - mnxb))
    by (apply exp_le; lra).
  pose proof (Rpower_antitone s010 _ _ Hs He) as Hr.
  assert (Hx : (1 - Rpower s010 (exp (predict - mnxb'))) * 1000
               <= (1 - Rpower s010 (exp (predict - mnxb))) * 1000) by lra.
  apply py_round_mono, IZR_le in Hx. lra.
Qed.

Lemma output_monotone_witness :
  (0 < 0.95334 < 1 /\ 1 <= 2 /\ 3 <= 4 /\ 2 - 3 <= 709)
  /\ output 0.95334 3 1 <= output 0.95334 3 2
  /\ output 0.95334 4 1 <= output 0.95334 3 1.
Proof.
  assert (H1 : 0 < 0.95334 < 1) by lra.
  assert (H2 : 1 <= 2) by lra.
  assert (H3 : 3 <= 4) by lra.
  assert (H4 : 2 - 3 <= 709) by lra.
  split; [repeat split; lra|].
  exact (output_monotone 0.95334 3 4 1 2 H1 H2 H3 H4).
Defined.

(** ** How the result reacts to one field at a time *)

Section Sensitivity.

Lemma ln_78_upper : ln 78 <= 43568 / 10000.
Proof. apply ln_upper; certify. Qed.

Lemma ln_age_range (i : ASCVDInput) :
  valid i -> 36888 / 10000 <= ln (IZR (age i)) <= 43695 / 10000.
Proof.
  intros (Ha & _). split.
  - eapply Rle_trans; [apply ln_40_lower | apply ln_IZR_le; lia].
  - eapply Rle_trans; [apply (ln_IZR_le _ 79); lia | apply ln_79_upper].
Qed.

Lemma risk_le_of_predict_le (i j : ASCVDInput) :
  valid i -> valid j ->
  fst (branch_of i) = fst (branch_of j) ->
  snd (branch_of i) <= snd (branch_of j) ->
  exists ri rj,
    calculate_risk i = Ok {| ascvd_risk := ri |}
    /\ calculate_risk j = Ok {| ascvd_risk := rj |}
    /\ ri <= rj.
Proof.
  intros Hi Hj Hc Hp. do 2 eexists.
  split; [apply calculate_risk_valid; exact Hi|].
  split; [apply calculate_risk_valid; exact Hj|].
  pose proof (branch_s010_range i) as Hr.
  destruct (branch_of i) as [[si mi] pi].
  destruct (branch_of j) as [[sj mj] pj].
  simpl in Hc, Hp, Hr. injection Hc as <- <-.
  apply output_mono; assumption.
Qed.

Lemma constants_ignore_inputs (i j : ASCVDInput) :
  is_male i = is_male j -> is_black i = is_black j ->
  fst (branch_of i) = fst (branch_of j).
Proof.
  intros Hm Hb. unfold branch_of, subgroup. rewrite Hm, Hb.
  destruct (is_black j), (is_male j); reflexivity.
Qed.

Lemma diabetic_predict (i : ASCVDInput) :
  snd (branch_of (with_diabetic false i))
  <= snd (branch_of (with_diabetic true i)).
Proof.
  unfold branch_of, subgroup, terms_of; simpl.
  destruct (is_black i), (is_male i); simpl; lra.
Qed.

Lemma smoker_predict (i : ASCVDInput) :
  valid i ->
  (is_male i = true -> is_black i = false -> (age i <= 78)%Z) ->
  snd (branch_of (with_smoker false i))
  <= snd (branch_of (with_smoker true i)).
Proof.
  intros Hv H78. pose proof (ln_age_range i Hv) as [_ HA].
  unfold branch_of, subgroup, terms_of; simpl.
  destruct (is_black i), (is_male i); simpl; try lra.
  assert (H : ln (IZR (age i)) <= 43568 / 10000).
  { destruct Hv as (Ha & _).
    eapply Rle_trans; [apply (ln_IZR_le _ 78); [lia | auto] |
                       apply ln_78_upper]. }
  lra.
Qed.

Lemma smoker_predict_white_male_79 (i : ASCVDInput) :
  is_male i = true -> is_black i = false -> age i = 79%Z ->
  snd (branch_of (with_smoker true i))
  < snd (branch_of (with_smoker false i)).
Proof.
  intros Hm Hb Ha. pose proof ln_79_lower as H79.
  unfold branch_of, subgroup, terms_of; simpl.
  rewrite Hm, Hb, Ha; simpl. lra.
Qed.

Lemma systolic_bp_predict (i : ASCVDInput) (v w : Z) :
  valid (set_field SystolicBP v i) -> valid (set_field SystolicBP w i) ->
  (v <= w)%Z ->
  snd (branch_of (set_field SystolicBP v i))
  <= snd (branch_of (set_field SystolicBP w i)).
Proof.
  intros Hv Hw Hvw.
  pose proof (ln_age_range _ Hv) as [_ HA]. simpl in HA.
  destruct Hv as (_ & Hs & _). simpl in Hs.
  assert (HS : ln (IZR v) <= ln (IZR w)) by (apply ln_IZR_le; lia).
  assert (H1 : 0 <= (ln (IZR w) - ln (IZR v))
                    * (29.2907 - 6.4321 * ln (IZR (age i))))
    by (apply Rmult_le_pos; lra).
  assert (H2 : 0 <= (ln (IZR w) - ln (IZR v))
                    * (27.8197 - 6.0873 * ln (IZR (age i))))
    by (apply Rmult_le_pos; lra).
  unfold branch_of, subgroup, terms_of; simpl.
  destruct (is_black i), (is_male i); simpl;
    destruct (hypertensive i); lra.
Qed.

Lemma hdl_predict_male (i : ASCVDInput) (v w : Z) :
  is_male i = true ->
  valid (set_field Hdl v i) -> valid (set_field Hdl w i) -> (v <= w)%Z ->
  snd (branch_of (set_field Hdl w i)) <= snd (branch_of (set_field Hdl v i)).
Proof.
  intros Hm Hv Hw Hvw.
  pose proof (ln_age_range _ Hv) as [_ HA]. simpl in HA.
  destruct Hv as (_ & _ & _ & _ & Hh & _). simpl in Hh.
  assert (HH : ln (IZR v) <= ln (IZR w)) by (apply ln_IZR_le; lia).
  assert (H1 : 0 <= (ln (IZR w) - ln (IZR v))
                    * (7.99 - 1.769 * ln (IZR (age i))))
    by (apply Rmult_le_pos; lra).
  unfold branch_of, subgroup, terms_of; simpl. rewrite Hm.
  destruct (is_black i); simpl; lra.
Qed.

Lemma total_cholesterol_predict (i : ASCVDInput) (v w : Z) :
  is_male i = true \/ is_black i = true ->
  valid (set_field TotalCholesterol v i) ->
  valid (set_field TotalCholesterol w i) -> (v <= w)%Z ->
  snd (branch_of (set_field TotalCholesterol v i))
  <= snd (branch_of (set_field TotalCholesterol w i)).
Proof.
  intros Hor Hv Hw Hvw.
  pose proof (ln_age_range _ Hv) as [_ HA]. simpl in HA.
  destruct Hv as (_ & _ & _ & Ht & _). simpl in Ht.
  assert (HT : ln (IZR v) <= ln (IZR w)) by (apply ln_IZR_le; lia).
  assert (H1 : 0 <= (ln (IZR w) - ln (IZR v))
                    * (11.853 - 2.664 * ln (IZR (age i))))
    by (apply Rmult_le_pos; lra).
  unfold branch_of, subgroup, terms_of; simpl.
  destruct (is_black i), (is_male i); simpl;
    try (destruct Hor; discriminate); lra.
Qed.

Lemma hypertensive_predict (i : ASCVDInput) :
  is_male i = true \/ is_black i = false ->
  valid i ->
  snd (branch_of (with_hypertensive false i))
  <= snd (branch_of (with_hypertensive true i)).
Proof.
  intros Hor (_ & Hs & _).
  assert (HS : 0 < ln (IZR (systolic_bp i))) by (apply ln_gt_0; lia).
  unfold branch_of, subgroup, terms_of; simpl.
  destruct (is_black i), (is_male i); simpl;
    try (destruct Hor; discriminate); lra.
Qed.

End Sensitivity.

Lemma ln_72_lower : 42766 / 10000 <= ln 72.
Proof. apply ln_lower; certify. Qed.

Lemma hypertensive_predict_black_female (i : ASCVDInput) :
  is_male i = false -> is_black i = true ->
  valid i -> (72 <= age i)%Z ->
  snd (branch_of (with_hypertensive true i))
  < snd (branch_of (with_hypertensive false i)).
Proof.
  intros Hm Hb (Ha & Hs & _) H72.
  assert (HS : 0 < ln (IZR (systolic_bp i))) by (apply ln_gt_0; lia).
  assert (HA : 42766 / 10000 <= ln (IZR (age i))).
  { eapply Rle_trans; [apply ln_72_lower | apply ln_IZR_le; lia]. }
  assert (H1 : 0 < ln (IZR (systolic_bp i))
                   * (0.3448 * ln (IZR (age i)) - 1.471))
    by (apply Rmult_lt_0_compat; lra).
  unfold branch_of, subgroup, terms_of; simpl.
  rewrite Hm, Hb; simpl. lra.
Qed.

(** X4: setting the diabetic flag never lowers the result of a valid
    request, in any of the four branches. *)
Theorem diabetic_never_lowers_risk (i : ASCVDInput) :
  valid i ->
  exists r0 r1,
    calculate_risk (with_diabetic false i) = Ok {| ascvd_risk := r0 |}
    /\ calculate_risk (with_diabetic true i) = Ok {| ascvd_risk := r1 |}
    /\ r0 <= r1.
Proof.
  intro Hv. apply risk_le_of_predict_le.
  - exact Hv.
  - exact Hv.
  - apply constants_ignore_inputs; reflexivity.
  - apply diabetic_predict.
Qed.

Lemma diabetic_never_lowers_risk_witness :
  valid reference_input
  /\ exists r0 r1,
       calculate_risk (with_diabetic false reference_input)
       = Ok {| ascvd_risk := r0 |}
       /\ calculate_risk (with_diabetic true reference_input)
          = Ok {| ascvd_risk := r1 |}
       /\ r0 <= r1.
Proof.
  split.
  - unfold valid; simpl; lia.
  - apply (diabetic_never_lowers_risk reference_input).
    unfold valid; simpl; lia.
Defined.

(** X5: with every other field fixed, a higher systolic blood pressure
    (both values accepted) never lowers the result, in any branch and
    whether or not the hypertensive flag is set. *)
Theorem systolic_bp_never_lowers_risk (i : ASCVDInput) (v w : Z) :
  valid (set_field SystolicBP v i) -> valid (set_field SystolicBP w i) ->
  (v <= w)%Z ->
  exists rv rw,
    calculate_risk (set_field SystolicBP v i) = Ok {| ascvd_risk := rv |}
    /\ calculate_risk (set_field SystolicBP w i) = Ok {| ascvd_risk := rw |}
    /\ rv <= rw.
Proof.
  intros Hv Hw Hvw. apply risk_le_of_predict_le.
  - exact Hv.
  - exact Hw.
  - apply constants_ignore_inputs; reflexivity.
  - apply systolic_bp_predict; assumption.
Qed.

Lemma systolic_bp_never_lowers_risk_witness :
  (valid (set_field SystolicBP 90 reference_input)
   /\ valid (set_field SystolicBP 200 reference_input)
   /\ (90 <= 200)%Z)
  /\ exists rv rw,
       calculate_risk (set_field SystolicBP 90 reference_input)
       = Ok {| ascvd_risk := rv |}
       /\ calculate_risk (set_field SystolicBP 200 reference_input)
          = Ok {| ascvd_risk := rw |}
       /\ rv <= rw.
Proof.
  assert (H1 : valid (set_field SystolicBP 90 reference_input))
    by (unfold valid; simpl; lia).
  assert (H2 : valid (set_field SystolicBP 200 reference_input))
    by (unfold valid; simpl; lia).
  assert (H3 : (90 <= 200)%Z) by lia.
  split; [split; [exact H1 | split; [exact H2 | exact H3]]|].
  exact (systolic_bp_never_lowers_risk reference_input 90 200 H1 H2 H3).
Defined.

(** X6: setting the smoker flag never lowers the result of a valid
    request, except possibly for a non-black man of 79: the theorem covers
    every branch and, for the non-black male one, the ages up to 78. *)
Theorem smoker_never_lowers_risk (i : ASCVDInput) :
  valid i ->
  (is_male i = true -> is_black i = false -> (age i <= 78)%Z) ->
  exists r0 r1,
    calculate_risk (with_smoker false i) = Ok {| ascvd_risk := r0 |}
    /\ calculate_risk (with_smoker true i) = Ok {| ascvd_risk := r1 |}
    /\ r0 <= r1.
Proof.
  intros Hv H78. apply risk_le_of_predict_le.
  - exact Hv.
  - exact Hv.
  - apply constants_ignore_inputs; reflexivity.
  - apply smoker_predict; assumption.
Qed.

Lemma smoker_never_lowers_risk_witness :
  (valid white_male_55
   /\ (is_male white_male_55 = true -> is_black white_male_55 = false ->
       (age white_male_55 <= 78)%Z))
  /\ exists r0 r1,
       calculate_risk (with_smoker false white_male_55)
       = Ok {| ascvd_risk := r0 |}
       /\ calculate_risk (with_smoker true white_male_55)
          = Ok {| ascvd_risk := r1 |}
       /\ r0 <= r1.
Proof.
  assert (H1 : valid white_male_55) by (unfold valid; simpl; lia).
  assert (H2 : is_male white_male_55 = true ->
               is_black white_male_55 = false ->
               (age white_male_55 <= 78)%Z) by (intros _ _; simpl; lia).
  split; [split; [exact H1 | exact H2]|].
  exact (smoker_never_lowers_risk white_male_55 H1 H2).
Defined.

(** X7: for a non-black man of 79 the smoker flag strictly lowers the
    linear predictor (7.837 is less than 1.795 ln 79), so the smoker's
    result is never above the non-smoker's. *)
Theorem smoker_lowers_predictor_at_79 (i : ASCVDInput) :
  valid i -> is_male i = true -> is_black i = false -> age i = 79%Z ->
  snd (branch_of (with_smoker true i)) < snd (branch_of (with_smoker false i))
  /\ exists rs rn,
       calculate_risk (with_smoker true i) = Ok {| ascvd_risk := rs |}
       /\ calculate_risk (with_smoker false i) = Ok {| ascvd_risk := rn |}
       /\ rs <= rn.
Proof.
  intros Hv Hm Hb Ha.
  pose proof (smoker_predict_white_male_79 i Hm Hb Ha) as Hlt.
  split; [exact Hlt|].
  apply risk_le_of_predict_le.
  - exact Hv.
  - exact Hv.
  - apply constants_ignore_inputs; reflexivity.
  - lra.
Qed.

Lemma smoker_lowers_predictor_at_79_witness :
  (valid (with_age 79 white_male_55)
   /\ is_male (with_age 79 white_male_55) = true
   /\ is_black (with_age 79 white_male_55) = false
   /\ age (with_age 79 white_male_55) = 79%Z)
  /\ snd (branch_of (with_smoker true (with_age 79 white_male_55)))
     < snd (branch_of (with_smoker false (with_age 79 white_male_55))).
Proof.
  assert (H1 : valid (with_age 79 white_male_55))
    by (unfold valid; simpl; lia).
  split; [repeat split; unfold valid in *; simpl; lia|].
  apply (smoker_lowers_predictor_at_79 (with_age 79 white_male_55) H1);
    reflexivity.
Defined.

(** X8: in the two male branches, with every other field fixed, a higher
    HDL cholesterol (both values accepted) never raises the result. *)
Theorem hdl_never_raises_risk_male (i : ASCVDInput) (v w : Z) :
  is_male i = true ->
  valid (set_field Hdl v i) -> valid (set_field Hdl w i) -> (v <= w)%Z ->
  exists rw rv,
    calculate_risk (set_field Hdl w i) = Ok {| ascvd_risk := rw |}
    /\ calculate_risk (set_field Hdl v i) = Ok {| ascvd_risk := rv |}
    /\ rw <= rv.
Proof.
  intros Hm Hv Hw Hvw. apply risk_le_of_predict_le.
  - exact Hw.
  - exact Hv.
  - apply constants_ignore_inputs; reflexivity.
  - apply hdl_predict_male; assumption.
Qed.

Lemma hdl_never_raises_risk_male_witness :
  (is_male white_male_55 = true
   /\ valid (set_field Hdl 20 white_male_55)
   /\ valid (set_field Hdl 100 white_male_55)
   /\ (20 <= 100)%Z)
  /\ exists rw rv,
       calculate_risk (set_field Hdl 100 white_male_55)
       = Ok {| ascvd_risk := rw |}
       /\ calculate_risk (set_field Hdl 20 white_male_55)
          = Ok {| ascvd_risk := rv |}
       /\ rw <= rv.
Proof.
  assert (H1 : is_male white_male_55 = true) by reflexivity.
  assert (H2 : valid (set_field Hdl 20 white_male_55))
    by (unfold valid; simpl; lia).
  assert (H3 : valid (set_field Hdl 100 white_male_55))
    by (unfold valid; simpl; lia).
  assert (H4 : (20 <= 100)%Z) by lia.
  split; [split; [exact H1 | split; [exact H2 | split; [exact H3 | exact H4]]]|].
  exact (hdl_never_raises_risk_male white_male_55 20 100 H1 H2 H3 H4).
Defined.

(** X9: in the two male branches and the black female branch, with every
    other field fixed, a higher total cholesterol (both values accepted)
    never lowers the result. *)
Theorem total_cholesterol_never_lowers_risk (i : ASCVDInput) (v w : Z) :
  is_male i = true \/ is_black i = true ->
  valid (set_field TotalCholesterol v i) ->
  valid (set_field TotalCholesterol w i) -> (v <= w)%Z ->
  exists rv rw,
    calculate_risk (set_field TotalCholesterol v i)
    = Ok {| ascvd_risk := rv |}
    /\ calculate_risk (set_field TotalCholesterol w i)
       = Ok {| ascvd_risk := rw |}
    /\ rv <= rw.
Proof.
  intros Hor Hv Hw Hvw. apply risk_le_of_predict_le.
  - exact Hv.
  - exact Hw.
  - apply constants_ignore_inputs; reflexivity.
  - apply total_cholesterol_predict; assumption.
Qed.

Lemma total_cholesterol_never_lowers_risk_witness :
  ((is_male reference_input = true \/ is_black reference_input = true)
   /\ valid (set_field TotalCholesterol 130 reference_input)
   /\ valid (set_field TotalCholesterol 320 reference_input)
   /\ (130 <= 320)%Z)
  /\ exists rv rw,
       calculate_risk (set_field TotalCholesterol 130 reference_input)
       = Ok {| ascvd_risk := rv |}
       /\ calculate_risk (set_field TotalCholesterol 320 reference_input)
          = Ok {| ascvd_risk := rw |}
       /\ rv <= rw.
Proof.
  assert (H1 : is_male reference_input = true
               \/ is_black reference_input = true)
    by (right; reflexivity).
  assert (H2 : valid (set_field TotalCholesterol 130 reference_input))
    by (unfold valid; simpl; lia).
  assert (H3 : valid (set_field TotalCholesterol 320 reference_input))
    by (unfold valid; simpl; lia).
  assert (H4 : (130 <= 320)%Z) by lia.
  split; [split; [exact H1 | split; [exact H2 | split; [exact H3 | exact H4]]]|].
  exact (total_cholesterol_never_lowers_risk reference_input 130 320
           H1 H2 H3 H4).
Defined.

(** X10: outside the black female branch, setting the hypertensive flag
    (same systolic blood pressure) never lowers the result. *)
Theorem treatment_never_lowers_risk (i : ASCVDInput) :
  is_male i = true \/ is_black i = false ->
  valid i ->
  exists r0 r1,
    calculate_risk (with_hypertensive false i) = Ok {| ascvd_risk := r0 |}
    /\ calculate_risk (with_hypertensive true i) = Ok {| ascvd_risk := r1 |}
    /\ r0 <= r1.
Proof.
  intros Hor Hv. apply risk_le_of_predict_le.
  - exact Hv.
  - exact Hv.
  - apply constants_ignore_inputs; reflexivity.
  - apply hypertensive_predict; assumption.
Qed.

Lemma treatment_never_lowers_risk_witness :
  ((is_male white_male_55 = true \/ is_black white_male_55 = false)
   /\ valid white_male_55)
  /\ exists r0 r1,
       calculate_risk (with_hypertensive false white_male_55)
       = Ok {| ascvd_risk := r0 |}
       /\ calculate_risk (with_hypertensive true white_male_55)
          = Ok {| ascvd_risk := r1 |}
       /\ r0 <= r1.
Proof.
  assert (H1 : is_male white_male_55 = true \/ is_black white_male_55 = false)
    by (left; reflexivity).
  assert (H2 : valid white_male_55) by (unfold valid; simpl; lia).
  split; [split; [exact H1 | exact H2]|].
  exact (treatment_never_lowers_risk white_male_55 H1 H2).
Defined.

(** X11: in the black female branch, from the age of 72 on, setting the
    hypertensive flag (same systolic blood pressure) strictly lowers the
    linear predictor, so the treated result is never above the untreated
    one. *)
Theorem treatment_lowers_predictor_black_female (i : ASCVDInput) :
  valid i -> is_male i = false -> is_black i = true -> (72 <= age i)%Z ->
  snd (branch_of (with_hypertensive true i))
  < snd (branch_of (with_hypertensive false i))
  /\ exists rt ru,
       calculate_risk (with_hypertensive true i) = Ok {| ascvd_risk := rt |}
       /\ calculate_risk (with_hypertensive false i)
          = Ok {| ascvd_risk := ru |}
       /\ rt <= ru.
Proof.
  intros Hv Hm Hb H72.
  pose proof (hypertensive_predict_black_female i Hm Hb Hv H72) as Hlt.
  split; [exact Hlt|].
  apply risk_le_of_predict_le.
  - exact Hv.
  - exact Hv.
  - apply constants_ignore_inputs; reflexivity.
  - lra.
Qed.

Lemma treatment_lowers_predictor_black_female_witness :
  (valid (with_age 75 reference_input)
   /\ is_male (with_age 75 reference_input) = false
   /\ is_black (with_age 75 reference_input) = true
   /\ (72 <= age (with_age 75 reference_input))%Z)
  /\ snd (branch_of (with_hypertensive true (with_age 75 reference_input)))
     < snd (branch_of (with_hypertensive false (with_age 75 reference_input))).
Proof.
  assert (H1 : valid (with_age 75 reference_input))
    by (unfold valid; simpl; lia).
  split; [repeat split; unfold valid in *; simpl; lia|].
  apply (treatment_lowers_predictor_black_female
           (with_age 75 reference_input) H1);
    [reflexivity | reflexivity | simpl; lia].
Defined.
